(** * EcoSound Garden: the sensor simulator, the prediction engine and the
      ingestion endpoint, embedded and checked against their specification.

    Sources embedded here:
    - [src/lib/iotSimulator.ts]   (modules [Simulator], [Scoring])
    - [src/lib/tfModels.ts]       (modules [TfModels], [Disposal], [TfModelsNum])
    - [src/app/api/sensors/ingest/route.ts] (modules [Ingest], [Query])

    Numbers.  A JavaScript [number] is modelled as an exact rational ([Q]):
    the properties studied (clamps, thresholds, rounding to a grid) do not
    depend on the last bits of a binary64 mantissa.  Equality of numbers is
    [Qeq] ([==]).  The simulator and the endpoint produce and store finite
    numbers only.  The two functions of [tfModels.ts] take numbers from
    outside and one divides by a computed value: they are embedded a second
    time on [Number.t], the rationals with [NaN] and the infinities (module
    [TfModelsNum]), and the rational definitions are shown to be the
    restriction of those.

    Effects.  [Math.random()] and [Date.now()] are inputs of the model: every
    operation receives the draws and the clock readings it consumes.  The
    module-level [Map] of plant states is a [gmap Z PlantState.t] threaded
    through the operations.  Exceptions are explicit. *)

From Stdlib Require Import ZArith QArith Qminmax Qabs Qround Lqa Lia List String.
From stdpp Require Import gmap.

Open Scope Q_scope.

(** ** The [Math] functions used by the sources *)

Module JSMath.

(** [Math.round]: nearest integer, halves towards plus infinity. *)
Definition round (x : Q) : Q := inject_Z (Qfloor (x + (1 # 2))).

Definition abs (x : Q) : Q := Qabs x.
Definition max (a b : Q) : Q := Qmax a b.
Definition min (a b : Q) : Q := Qmin a b.

(** [Math.sqrt] on a non-negative rational [n/d]: the root of [n*d]
    over [d], computed to 52 fractional bits below the denominator.  It is
    exact on squares of rationals, which is where it is evaluated below; the
    general lemmas use only that it is never negative. *)
Definition sqrt_scale : positive := Eval vm_compute in (2 ^ 52)%positive.
Definition sqrt (x : Q) : Q :=
  Z.sqrt (Qnum x * Zpos (Qden x) * (Zpos sqrt_scale * Zpos sqrt_scale))
    # (Qden x * sqrt_scale).

(** [new Date(t)] keeps the integral part of a time value (truncation
    towards zero). *)
Definition time_clip (t : Q) : Z :=
  if Qlt_le_dec t 0 then Qceiling t else Qfloor t.

End JSMath.

(** ** Exceptions *)

(** How a statement list ends: normally with a value, or by an exception. *)
Inductive Completion (A : Type) :=
| Normal (a : A)
| Thrown.
Arguments Normal {A} a.
Arguments Thrown {A}.

(** ** [src/lib/iotSimulator.ts] *)

Module PlantState.
Record t := mk {
  plantId : Z;
  temperature : Q;
  humidity : Q;
  soilMoisture : Q;
  lightIntensity : Q;
  lastWatered : Z;          (* milliseconds since the epoch *)
  stressLevel : Q
}.
End PlantState.

Module SensorReading.
Record t := mk {
  plantId : Z;
  temperature : Q;
  humidity : Q;
  soilMoisture : Q;
  lightIntensity : Q;
  timestamp : Z;
  acousticData : list Q
}.
End SensorReading.

Module Simulator.

Import PlantState.

(** [optimalRanges]: only the [ideal] entries are read by the code. *)
Definition ideal_temperature : Q := 22.
Definition ideal_humidity : Q := 60.
Definition ideal_soilMoisture : Q := 60.

(** What one call of [initializeSensorState] consumes: six draws of
    [Math.random()] in source order and one reading of [Date.now()]. *)
Record InitDraws := {
  u_temperature : Q;
  u_humidity : Q;
  u_soilMoisture : Q;
  u_lightIntensity : Q;
  u_lastWatered : Q;
  u_stressLevel : Q;
  init_now : Z
}.

(** What one call of [generateSensorReading] consumes. [first] is used only
    when the plant has no state yet; [noise i] is the draw of the [i]-th
    iteration of the loop of [generateAcousticPattern]. *)
Record StepDraws := {
  first : InitDraws;
  v_temperature : Q;
  v_humidity : Q;
  v_soilMoisture : Q;
  v_lightIntensity : Q;
  now : Z;                  (* Date.now() of the decay computation *)
  noise : nat -> Q;
  stamp : Z                 (* new Date() of the returned reading *)
}.

(** The object literal of [initializeSensorState]. *)
Definition fresh_state (d : InitDraws) (id : Z) (optimalTemp : Q) : PlantState.t :=
  {| plantId := id;
     temperature := optimalTemp + (u_temperature d - 0.5) * 4;
     humidity := 60 + (u_humidity d - 0.5) * 20;
     soilMoisture := 60 + (u_soilMoisture d - 0.5) * 30;
     lightIntensity := 500 + (u_lightIntensity d - 0.5) * 200;
     lastWatered :=
       JSMath.time_clip
         (inject_Z (init_now d) - u_lastWatered d * 7 * 24 * 60 * 60 * 1000);
     stressLevel := u_stressLevel d * 0.3 |}.

Definition initializeSensorState (d : InitDraws) (id : Z) (optimalTemp : Q)
    (plantStates : gmap Z PlantState.t) : gmap Z PlantState.t :=
  <[ id := fresh_state d id optimalTemp ]> plantStates.

Definition healthyBase : list Q := [100; 150; 200; 250].
Definition stressFreqs : list Q := [800; 1200; 1600; 2000].

(** The loop of [generateAcousticPattern], [i] running from [i0] for [n]
    iterations. *)
Fixpoint acoustic_loop (noise : nat -> Q) (stress : Q) (i0 n : nat) : list Q :=
  match n with
  | O => []
  | S n' =>
      let frequency :=
        nth (i0 mod 4) healthyBase 0 * (1 - stress)
        + nth (i0 mod 4) stressFreqs 0 * stress in
      (frequency + (noise i0 - 0.5) * 50 * stress)
        :: acoustic_loop noise stress (S i0) n'
  end.

Definition generateAcousticPattern (noise : nat -> Q) (stress : Q) : list Q :=
  acoustic_loop noise stress 0 20.

(** [generateSensorReading].  The result is [None] exactly when
    [plantStates.get(plantId)!] would be [undefined] (see
    [generateSensorReading_returns]: it never is). *)
Definition generateSensorReading (d : StepDraws) (id : Z)
    (plantStates : gmap Z PlantState.t)
    : option (SensorReading.t * gmap Z PlantState.t) :=
  let plantStates :=
    match plantStates !! id with
    | None => initializeSensorState (first d) id 22 plantStates
    | Some _ => plantStates
    end in
  match plantStates !! id with
  | None => None
  | Some state =>
      let tempChange := (v_temperature d - 0.5) * 0.5 in
      let humidityChange := (v_humidity d - 0.5) * 2 in
      let moistureChange := (v_soilMoisture d - 0.5) * 3 in
      let lightChange := (v_lightIntensity d - 0.5) * 50 in
      let temperature' :=
        JSMath.max 15 (JSMath.min 35 (temperature state + tempChange)) in
      let humidity' :=
        JSMath.max 20 (JSMath.min 95 (humidity state + humidityChange)) in
      let soilMoisture1 :=
        JSMath.max 10 (JSMath.min 100 (soilMoisture state + moistureChange)) in
      let lightIntensity' :=
        JSMath.max 0 (JSMath.min 1000 (lightIntensity state + lightChange)) in
      let hoursSinceWatered :=
        inject_Z (now d - lastWatered state) / (1000 * 60 * 60) in
      let soilMoisture' :=
        JSMath.max 10 (soilMoisture1 - hoursSinceWatered * 0.15) in
      let tempStress := JSMath.abs (temperature' - ideal_temperature) / 10 in
      let humidityStress := JSMath.abs (humidity' - ideal_humidity) / 30 in
      let moistureStress :=
        JSMath.abs (soilMoisture' - ideal_soilMoisture) / 50 in
      let stressLevel' :=
        JSMath.min 1 ((tempStress + humidityStress + moistureStress) / 3) in
      let acousticData := generateAcousticPattern (noise d) stressLevel' in
      let state' := {|
        plantId := plantId state;
        temperature := temperature';
        humidity := humidity';
        soilMoisture := soilMoisture';
        lightIntensity := lightIntensity';
        lastWatered := lastWatered state;
        stressLevel := stressLevel'
      |} in
      Some ({|
        SensorReading.plantId := id;
        SensorReading.temperature := JSMath.round (temperature' * 10) / 10;
        SensorReading.humidity := JSMath.round (humidity' * 10) / 10;
        SensorReading.soilMoisture := JSMath.round (soilMoisture' * 10) / 10;
        SensorReading.lightIntensity := JSMath.round lightIntensity';
        SensorReading.timestamp := stamp d;
        SensorReading.acousticData := acousticData
      |}, <[ id := state' ]> plantStates)
  end.

Definition waterPlant (date_now : Z) (id : Z)
    (plantStates : gmap Z PlantState.t) : gmap Z PlantState.t :=
  match plantStates !! id with
  | Some state =>
      <[ id := {|
          plantId := plantId state;
          temperature := temperature state;
          humidity := humidity state;
          soilMoisture := JSMath.min 90 (soilMoisture state + 40);
          lightIntensity := lightIntensity state;
          lastWatered := date_now;
          stressLevel := stressLevel state
        |} ]> plantStates
  | None => plantStates
  end.

Definition getPlantState (id : Z) (plantStates : gmap Z PlantState.t)
    : option PlantState.t :=
  plantStates !! id.

(** *** Runs of the simulator

    A call receives draws of [Math.random()], which lie in [0,1), and clock
    readings, which follow each other in program order on a clock that does
    not run backwards. *)

Definition unit_draw (u : Q) : Prop := 0 <= u /\ u < 1.

Record init_draws_ok (d : InitDraws) : Prop := {
  ok_u_temperature : unit_draw (u_temperature d);
  ok_u_humidity : unit_draw (u_humidity d);
  ok_u_soilMoisture : unit_draw (u_soilMoisture d);
  ok_u_lightIntensity : unit_draw (u_lightIntensity d);
  ok_u_lastWatered : unit_draw (u_lastWatered d);
  ok_u_stressLevel : unit_draw (u_stressLevel d)
}.

Record step_draws_ok (d : StepDraws) : Prop := {
  ok_first : init_draws_ok (first d);
  ok_v_temperature : unit_draw (v_temperature d);
  ok_v_humidity : unit_draw (v_humidity d);
  ok_v_soilMoisture : unit_draw (v_soilMoisture d);
  ok_v_lightIntensity : unit_draw (v_lightIntensity d);
  ok_noise : forall i, unit_draw (noise d i);
  ok_first_now : (init_now (first d) <= now d)%Z;
  ok_now_stamp : (now d <= stamp d)%Z
}.

(** The exported operations that touch [plantStates]. *)
Inductive Call :=
| CallInitialize (id : Z) (optimalTemp : Q) (d : InitDraws)
| CallGenerate (id : Z) (d : StepDraws)
| CallWater (id : Z) (date_now : Z)
| CallGetState (id : Z).

(** The module state together with the latest clock reading. *)
Record World := {
  clock : Z;
  plantStates : gmap Z PlantState.t
}.

Inductive step (w : World) : Call -> World -> Prop :=
| step_initialize id optimalTemp d :
    init_draws_ok d ->
    (clock w <= init_now d)%Z ->
    step w (CallInitialize id optimalTemp d)
      {| clock := init_now d;
         plantStates := initializeSensorState d id optimalTemp (plantStates w) |}
| step_generate id d reading states' :
    step_draws_ok d ->
    (clock w <= init_now (first d))%Z ->
    generateSensorReading d id (plantStates w) = Some (reading, states') ->
    step w (CallGenerate id d) {| clock := stamp d; plantStates := states' |}
| step_water id date_now :
    (clock w <= date_now)%Z ->
    step w (CallWater id date_now)
      {| clock := date_now; plantStates := waterPlant date_now id (plantStates w) |}
| step_get id :
    step w (CallGetState id) w.

(** The states a process can be in: the map starts empty. *)
Inductive reachable : World -> Prop :=
| reachable_start t0 : reachable {| clock := t0; plantStates := ∅ |}
| reachable_step w c w' : reachable w -> step w c w' -> reachable w'.

(** The hard ranges of the metrics. *)
Record in_hard_ranges (s : PlantState.t) : Prop := {
  range_temperature : 15 <= temperature s /\ temperature s <= 35;
  range_humidity : 20 <= humidity s /\ humidity s <= 95;
  range_soilMoisture : 10 <= soilMoisture s /\ soilMoisture s <= 100;
  range_lightIntensity : 0 <= lightIntensity s /\ lightIntensity s <= 1000;
  range_stressLevel : 0 <= stressLevel s /\ stressLevel s <= 1
}.

(** The state update of [generateSensorReading] on its own: the walk, the
    decay and the stress of one call, from the stored state. *)
Definition clamp (lo hi x : Q) : Q := JSMath.max lo (JSMath.min hi x).

Definition advance (d : StepDraws) (s : PlantState.t) : PlantState.t :=
  let t := clamp 15 35 (temperature s + (v_temperature d - 0.5) * 0.5) in
  let h := clamp 20 95 (humidity s + (v_humidity d - 0.5) * 2) in
  let m :=
    JSMath.max 10
      (clamp 10 100 (soilMoisture s + (v_soilMoisture d - 0.5) * 3)
       - inject_Z (now d - lastWatered s) / (1000 * 60 * 60) * 0.15) in
  let l := clamp 0 1000 (lightIntensity s + (v_lightIntensity d - 0.5) * 50) in
  {| plantId := plantId s;
     temperature := t;
     humidity := h;
     soilMoisture := m;
     lightIntensity := l;
     lastWatered := lastWatered s;
     stressLevel :=
       JSMath.min 1
         ((JSMath.abs (t - ideal_temperature) / 10
           + JSMath.abs (h - ideal_humidity) / 30
           + JSMath.abs (m - ideal_soilMoisture) / 50) / 3) |}.

(** The display rounding of the returned reading. *)
Definition round1 (x : Q) : Q := JSMath.round (x * 10) / 10.

Definition display (d : StepDraws) (id : Z) (s : PlantState.t) : SensorReading.t :=
  {| SensorReading.plantId := id;
     SensorReading.temperature := round1 (temperature s);
     SensorReading.humidity := round1 (humidity s);
     SensorReading.soilMoisture := round1 (soilMoisture s);
     SensorReading.lightIntensity := JSMath.round (lightIntensity s);
     SensorReading.timestamp := stamp d;
     SensorReading.acousticData :=
       generateAcousticPattern (noise d) (stressLevel s) |}.

(** [y] is [x] rounded to the grid of multiples of [unit]. *)
Definition rounded_to (unit x y : Q) : Prop :=
  (exists k : Z, y == inject_Z k * unit)
  /\ x - unit / 2 < y /\ y <= x + unit / 2.

(** What feeding the displayed values back into the state would store. *)
Definition rounded_state (s : PlantState.t) : PlantState.t :=
  {| plantId := plantId s;
     temperature := round1 (temperature s);
     humidity := round1 (humidity s);
     soilMoisture := round1 (soilMoisture s);
     lightIntensity := JSMath.round (lightIntensity s);
     lastWatered := lastWatered s;
     stressLevel := stressLevel s |}.

(** The state object a call of [generateSensorReading] works on: the stored
    one, or the one it has just initialised. *)
Definition working_state (d : StepDraws) (id : Z)
    (plantStates : gmap Z PlantState.t) : PlantState.t :=
  match plantStates !! id with
  | Some s => s
  | None => fresh_state (first d) id 22
  end.

(** No stored state was watered after the latest clock reading. *)
Definition watered_in_past (w : World) : Prop :=
  forall id s, plantStates w !! id = Some s -> (lastWatered s <= clock w)%Z.

(** Equality of states up to the representation of the rationals. *)
Definition state_equiv (a b : PlantState.t) : Prop :=
  plantId a = plantId b /\ temperature a == temperature b
  /\ humidity a == humidity b /\ soilMoisture a == soilMoisture b
  /\ lightIntensity a == lightIntensity b /\ lastWatered a = lastWatered b
  /\ stressLevel a == stressLevel b.

End Simulator.

(** ** [src/lib/tfModels.ts] *)

Module PredictionResult.
Inductive Trend := improving | stable | declining.
Record t := mk {
  predictedHealth : Q;
  confidence : Q;
  trend : Trend
}.
End PredictionResult.

Module AcousticResult.
Inductive Classification := healthy | moderate_stress | high_stress.
Record t := mk {
  stressLevel : Q;
  classification : Classification;
  confidence : Q
}.
End AcousticResult.

Module TfModels.

Record PlantHealthInput := {
  healthScore : Q;
  temperature : Q;
  humidity : Q
}.

(** TensorFlow.js is outside the repository.  One inference (building the
    input tensor, [predict], [dataSync], then the two [dispose] calls) either
    throws before [values] is available, or delivers [values[0]] and
    [values[1]]; in the second case a [dispose] call may still throw, after
    the assignments to the local variables have been made.  Here the two
    outputs are rationals; [TfModelsNum.Inference] has the outputs that are
    [NaN], infinite or absent. *)
Inductive Inference :=
| InferenceThrows
| InferenceValues (v0 v1 : Q) (dispose_throws : bool).

(** The module variables [healthModel] and [acousticModel] ([None] is
    [null]) and whether [window.tf] is truthy. *)
Record Runtime := {
  healthModel : option (list Q -> Inference);
  acousticModel : option (list Q -> Inference);
  window_tf : bool
}.

(** [v || d] on numbers: [d] when [v] is zero. *)
Definition or_default (v d : Q) : Q := if Qeq_bool v 0 then d else v.

(** The local variables [predictedHealth] and [confidence] of
    [predictPlantHealth] when control reaches the comment "Determine trend".
    The inner [catch] only logs, so an exception of the inference leaves the
    locals as they were at the point of the throw. *)
Definition predictPlantHealth_locals (rt : Runtime) (input : PlantHealthInput)
    : Q * Q :=
  let predictedHealth := healthScore input in
  let confidence := 0.7 in
  match healthModel rt, window_tf rt with
  | Some model, true =>
      match model [healthScore input / 100;
                   temperature input / 30;
                   humidity input / 100] with
      | InferenceThrows => (predictedHealth, confidence)
      | InferenceValues v0 v1 _ =>
          (JSMath.round (v0 * 100), or_default v1 0.75)
      end
  | _, _ =>
      let tempScore := 100 - JSMath.abs (temperature input - 23) * 5 in
      let humidityScore := 100 - JSMath.abs (humidity input - 60) * 1.5 in
      (JSMath.round
         (healthScore input * 0.5 + tempScore * 0.25 + humidityScore * 0.25),
       0.65)
  end.

Import PredictionResult.

Definition determine_trend (predictedHealth healthScore : Q) : Trend :=
  if Qlt_le_dec (healthScore + 5) predictedHealth then improving
  else if Qlt_le_dec predictedHealth (healthScore - 5) then declining
  else stable.

(** The body of the outer [try] of [predictPlantHealth]. *)
Definition predictPlantHealth_try (rt : Runtime) (input : PlantHealthInput)
    : Completion PredictionResult.t :=
  let '(predictedHealth, confidence) := predictPlantHealth_locals rt input in
  let trend := determine_trend predictedHealth (healthScore input) in
  Normal {|
    predictedHealth := JSMath.max 0 (JSMath.min 100 predictedHealth);
    confidence := JSMath.round (confidence * 100) / 100;
    trend := trend
  |}.

Definition predictPlantHealth (rt : Runtime) (input : PlantHealthInput)
    : PredictionResult.t :=
  match predictPlantHealth_try rt input with
  | Normal result => result
  | Thrown =>
      {| predictedHealth := healthScore input;
         confidence := 0.5;
         trend := stable |}
  end.

(** The else branch on its own ("Fallback: Simple domain-based
    prediction"), as a result. *)
Definition no_model : Runtime :=
  {| healthModel := None; acousticModel := None; window_tf := false |}.

Definition fallback_prediction (input : PlantHealthInput) : PredictionResult.t :=
  predictPlantHealth no_model input.

Import AcousticResult.

(** [a.reduce((x, y) => x + y)], which has no initial value. *)
Definition sum_reduce (l : list Q) : Q :=
  match l with
  | [] => 0
  | x :: rest => fold_left Qplus rest x
  end.

Definition length_of (l : list Q) : Q := inject_Z (Z.of_nat (length l)).

(** The local variables [stressLevel] and [confidence] of
    [analyzeAcousticPattern] when control reaches "Classify stress level".
    This is the rational fragment; a zero divisor [mean + 0.001] is treated
    in [TfModelsNum]. *)
Definition analyzeAcousticPattern_locals (rt : Runtime)
    (audioFeatures : list Q) (plantHealthScore : Q) : Q * Q :=
  let stressLevel := 0.5 in
  let confidence := 0.65 in
  match acousticModel rt, window_tf rt with
  | Some model, true =>
      match model audioFeatures with
      | InferenceThrows => (stressLevel, confidence)
      | InferenceValues v0 v1 _ =>
          (JSMath.min 1 (JSMath.max 0 v0), or_default v1 0.65)
      end
  | _, _ =>
      let mean := sum_reduce audioFeatures / length_of audioFeatures in
      let variance :=
        fold_left (fun sum val => sum + (val - mean) ^ 2) audioFeatures 0
        / length_of audioFeatures in
      let stressLevel :=
        JSMath.min 1 (JSMath.sqrt variance / (mean + 0.001)) in
      let healthFactor := 1 - plantHealthScore / 100 in
      let stressLevel := stressLevel * 0.7 + healthFactor * 0.3 in
      (stressLevel, 0.6 + 0.2 * (1 - JSMath.abs (stressLevel - 0.5)))
  end.

Definition classify (stressLevel : Q) : Classification :=
  if Qlt_le_dec 0.7 stressLevel then high_stress
  else if Qlt_le_dec 0.4 stressLevel then moderate_stress
  else healthy.

Definition analyzeAcousticPattern_try (rt : Runtime)
    (audioFeatures : list Q) (plantHealthScore : Q)
    : Completion AcousticResult.t :=
  match audioFeatures with
  | [] =>
      Normal {| stressLevel := 0.5; classification := healthy; confidence := 0.5 |}
  | _ =>
      let '(stressLevel, confidence) :=
        analyzeAcousticPattern_locals rt audioFeatures plantHealthScore in
      Normal {|
        stressLevel := JSMath.round (stressLevel * 1000) / 1000;
        classification := classify stressLevel;
        confidence := JSMath.round (confidence * 100) / 100
      |}
  end.

Definition analyzeAcousticPattern (rt : Runtime)
    (audioFeatures : list Q) (plantHealthScore : Q) : AcousticResult.t :=
  match analyzeAcousticPattern_try rt audioFeatures plantHealthScore with
  | Normal result => result
  | Thrown =>
      {| stressLevel := 0.5; classification := healthy; confidence := 0.5 |}
  end.

End TfModels.


(** ** [src/app/api/sensors/ingest/route.ts] *)

Module Ingest.

(** A value produced by [JSON.parse]. [JObject] lists the own properties of
    the parsed object (keys are distinct). *)
#[warnings="-register-all"]
Inductive Json :=
| JNull
| JBool (b : bool)
| JNumber (q : Q)
| JString (s : string)
| JArray (items : list Json)
| JObject (fields : list (string * Json)).

(** [await request.json()]: the parsed body, or an exception when the body is
    not JSON. *)
Inductive RequestBody :=
| NotJson
| Parsed (body : Json).

(** Reading a property while destructuring; [None] is [undefined].
    Primitives and arrays have none of the six properties. *)
Definition property (key : string) (body : Json) : option Json :=
  match body with
  | JObject fields =>
      match find (fun kv => String.eqb (fst kv) key) fields with
      | Some kv => Some (snd kv)
      | None => None
      end
  | _ => None
  end.

(** [!v] is [negb (truthy v)]. *)
Definition truthy (v : option Json) : bool :=
  match v with
  | None => false
  | Some JNull => false
  | Some (JBool b) => b
  | Some (JNumber q) => negb (Qeq_bool q 0)
  | Some (JString s) => negb (String.eqb s EmptyString)
  | Some (JArray _) => true
  | Some (JObject _) => true
  end.

Definition is_undefined (v : option Json) : bool :=
  match v with
  | None => true
  | Some _ => false
  end.

(** [v ?? null] *)
Definition or_null (v : option Json) : Json :=
  match v with
  | None => JNull
  | Some j => j
  end.

(** The string [new Date().toISOString()] of an instant in milliseconds. *)
Inductive IsoString := toISOString (ms : Z).

Record Reading := {
  plantId : Json;
  temperature : Json;
  humidity : Json;
  soilMoisture : Json;
  lightIntensity : Json;
  acousticData : Json;
  timestamp : IsoString
}.

(** The [Map] [sensorReadings]: entries in insertion order.  Keys are
    compared as [Map] does: primitives by value, arrays and objects by
    reference, and the key of a request is a fresh reference. *)
Definition same_key (a b : Json) : bool :=
  match a, b with
  | JNull, JNull => true
  | JBool x, JBool y => Bool.eqb x y
  | JNumber x, JNumber y => Qeq_bool x y
  | JString x, JString y => String.eqb x y
  | _, _ => false
  end.

Fixpoint map_get (key : Json) (m : list (Json * list Reading))
    : option (list Reading) :=
  match m with
  | [] => None
  | (k, v) :: rest => if same_key k key then Some v else map_get key rest
  end.

Fixpoint map_set (key : Json) (v : list Reading) (m : list (Json * list Reading))
    : list (Json * list Reading) :=
  match m with
  | [] => [(key, v)]
  | (k, v0) :: rest =>
      if same_key k key then (k, v) :: rest else (k, v0) :: map_set key v rest
  end.

Inductive ResponseBody :=
| ErrorBody (error : string)
| IngestedBody (success : bool) (message : string) (reading : Reading).

Record Response := {
  payload : ResponseBody;
  status : Z
}.

(** The body of the [try] of [POST]. *)
Definition POST_try (request : RequestBody) (date_now : Z)
    (sensorReadings : list (Json * list Reading))
    : Completion (Response * list (Json * list Reading)) :=
  match request with
  | NotJson => Thrown
  | Parsed JNull => Thrown           (* destructuring [null] *)
  | Parsed body =>
      let plantId := property "plantId" body in
      let temperature := property "temperature" body in
      let humidity := property "humidity" body in
      let soilMoisture := property "soilMoisture" body in
      let lightIntensity := property "lightIntensity" body in
      let acousticData := property "acousticData" body in
      if negb (truthy plantId) || is_undefined temperature || is_undefined humidity
      then
        Normal ({| payload :=
                     ErrorBody "Missing required fields: plantId, temperature, humidity";
                   status := 400 |}, sensorReadings)
      else
        let reading := {|
          plantId := or_null plantId;
          temperature := or_null temperature;
          humidity := or_null humidity;
          soilMoisture := or_null soilMoisture;
          lightIntensity := or_null lightIntensity;
          acousticData := or_null acousticData;
          timestamp := toISOString date_now
        |} in
        let readings :=
          match map_get (or_null plantId) sensorReadings with
          | Some readings => readings
          | None => []
          end in
        let readings := readings ++ [reading] in
        let readings :=
          if (1000 <? Z.of_nat (length readings))%Z then tail readings
          else readings in
        Normal ({| payload :=
                     IngestedBody true "Sensor data ingested successfully" reading;
                   status := 201 |},
                map_set (or_null plantId) readings sensorReadings)
  end.

Definition POST (request : RequestBody) (date_now : Z)
    (sensorReadings : list (Json * list Reading))
    : Response * list (Json * list Reading) :=
  match POST_try request date_now sensorReadings with
  | Normal r => r
  | Thrown =>
      ({| payload := ErrorBody "Failed to ingest sensor data"; status := 500 |},
       sensorReadings)
  end.

End Ingest.

(** ** Sample inputs *)

Module Samples.

Import Simulator.

(** Draws of one initialisation: [u] for the soil moisture, one half for the
    others. *)
Definition init_draws (u : Q) (t : Z) : InitDraws :=
  {| u_temperature := 1 # 2;
     u_humidity := 1 # 2;
     u_soilMoisture := u;
     u_lightIntensity := 1 # 2;
     u_lastWatered := 1 # 2;
     u_stressLevel := 1 # 2;
     init_now := t |}.

(** Draws of one generation at instant [t]: [v] for the soil moisture, [x]
    for the other metrics, one half for the acoustic noise. *)
Definition step_draws (x v : Q) (t : Z) : StepDraws :=
  {| first := init_draws (1 # 2) t;
     v_temperature := x;
     v_humidity := x;
     v_soilMoisture := v;
     v_lightIntensity := x;
     now := t;
     noise := fun _ => 1 # 2;
     stamp := t |}.

Definition start : World := {| clock := 1700000000000; plantStates := ∅ |}.

(** A run: plant 1 is initialised, watered one second later and read one
    second after that. *)
Definition states_initialized : gmap Z PlantState.t :=
  initializeSensorState (init_draws (3 # 4) 1700000000000) 1 22 ∅.

Definition states_watered : gmap Z PlantState.t :=
  waterPlant 1700000001000 1 states_initialized.

Definition states_read : gmap Z PlantState.t :=
  <[ 1%Z := advance (step_draws (1 # 2) (9 # 10) 1700000002000)
            (working_state (step_draws (1 # 2) (9 # 10) 1700000002000) 1
               states_watered) ]> states_watered.

Definition world_read : World :=
  {| clock := 1700000002000; plantStates := states_read |}.

Import TfModels.

(** A runtime whose models are loaded and throw on every inference. *)
Definition throwing_models : Runtime :=
  {| healthModel := Some (fun _ => InferenceThrows);
     acousticModel := Some (fun _ => InferenceThrows);
     window_tf := true |}.

(** A runtime whose health model answers [v0], [v1] on every input. *)
Definition constant_models (v0 v1 : Q) : Runtime :=
  {| healthModel := Some (fun _ => InferenceValues v0 v1 false);
     acousticModel := Some (fun _ => InferenceValues v0 v1 false);
     window_tf := true |}.

Definition plant (score t h : Q) : PlantHealthInput :=
  {| healthScore := score; temperature := t; humidity := h |}.

Import Ingest.

(** The body [{ plantId: id, temperature: 20, humidity: 50 }]. *)
Definition ingest_body (id : Json) : Json :=
  JObject [("plantId"%string, id);
           ("temperature"%string, JNumber 20);
           ("humidity"%string, JNumber 50)].

End Samples.

(** ** The rest of [src/lib/iotSimulator.ts] *)

Module Scoring.

Import Simulator.

(** [plantIds.map(id => generateSensorReading(id))]: the calls run in list
    order on the shared map; [draws k] is what the [k]-th call consumes. *)
Fixpoint readings_from (draws : nat -> StepDraws) (k : nat) (plantIds : list Z)
    (plantStates : gmap Z PlantState.t)
    : option (list SensorReading.t * gmap Z PlantState.t) :=
  match plantIds with
  | [] => Some ([], plantStates)
  | id :: rest =>
      match generateSensorReading (draws k) id plantStates with
      | None => None
      | Some (reading, plantStates') =>
          match readings_from draws (S k) rest plantStates' with
          | None => None
          | Some (readings, plantStates'') =>
              Some (reading :: readings, plantStates'')
          end
      end
  end.

Definition getAllPlantReadings (draws : nat -> StepDraws) (plantIds : list Z)
    (plantStates : gmap Z PlantState.t)
    : option (list SensorReading.t * gmap Z PlantState.t) :=
  readings_from draws 0 plantIds plantStates.

(** The value of [Math.round(avgFit * 100)] in [calculateHealthScore]. *)
Definition rounded_fit (reading : SensorReading.t) : Q :=
  let tempFit := 1 - JSMath.abs (SensorReading.temperature reading - 22) / 15 in
  let humidityFit := 1 - JSMath.abs (SensorReading.humidity reading - 60) / 30 in
  let moistureFit :=
    1 - JSMath.abs (SensorReading.soilMoisture reading - 60) / 50 in
  let lightFit :=
    if Qlt_le_dec 100 (SensorReading.lightIntensity reading) then 1
    else SensorReading.lightIntensity reading / 100 in
  let avgFit := (tempFit + humidityFit + moistureFit + lightFit) / 4 in
  JSMath.round (avgFit * 100).

Definition calculateHealthScore (reading : SensorReading.t) : Q :=
  JSMath.max 10 (JSMath.min 100 (rounded_fit reading)).

Definition count (l : list Q) : Q := inject_Z (Z.of_nat (length l)).

Definition predictAcousticStress (acousticData : list Q) : Q :=
  match acousticData with
  | [] => 0
  | _ =>
      let avgFrequency := fold_left Qplus acousticData 0 / count acousticData in
      let frequencyVariance :=
        fold_left (fun sum f => sum + (f - avgFrequency) ^ 2) acousticData 0
        / count acousticData in
      let stressFromFreq := JSMath.min 1 (avgFrequency / 1000) in
      let stressFromVariance := JSMath.min 1 (frequencyVariance / 500000) in
      (stressFromFreq + stressFromVariance) / 2
  end.

(** The three metrics and the stress level that every stored state keeps in
    range, and the key under which it is stored. *)
Record well_kept (id : Z) (s : PlantState.t) : Prop := {
  kept_plantId : PlantState.plantId s = id;
  kept_humidity : 20 <= PlantState.humidity s /\ PlantState.humidity s <= 95;
  kept_soilMoisture :
    10 <= PlantState.soilMoisture s /\ PlantState.soilMoisture s <= 100;
  kept_lightIntensity :
    0 <= PlantState.lightIntensity s /\ PlantState.lightIntensity s <= 1000;
  kept_stressLevel : 0 <= PlantState.stressLevel s /\ PlantState.stressLevel s <= 1
}.

(** The plant a call names. *)
Definition target (c : Call) : Z :=
  match c with
  | CallInitialize id _ _ => id
  | CallGenerate id _ => id
  | CallWater id _ => id
  | CallGetState id => id
  end.

(** The hard ranges, for a returned reading. *)
Record reading_in_hard_ranges (r : SensorReading.t) : Prop := {
  reading_temperature :
    15 <= SensorReading.temperature r /\ SensorReading.temperature r <= 35;
  reading_humidity :
    20 <= SensorReading.humidity r /\ SensorReading.humidity r <= 95;
  reading_soilMoisture :
    10 <= SensorReading.soilMoisture r /\ SensorReading.soilMoisture r <= 100;
  reading_lightIntensity :
    0 <= SensorReading.lightIntensity r /\ SensorReading.lightIntensity r <= 1000
}.

End Scoring.

(** ** The rest of [src/lib/tfModels.ts] *)

Module Disposal.

Import TfModels.

(** [disposeModels]. Each [dispose()] belongs to TensorFlow.js and may throw;
    the assignment of [null] follows it.  The result is the module state at
    the end and how the function completed. *)
Definition disposeModels (health_dispose_throws acoustic_dispose_throws : bool)
    (rt : Runtime) : Runtime * Completion unit :=
  match healthModel rt with
  | Some _ =>
      if health_dispose_throws then (rt, Thrown)
      else
        let rt1 := {| healthModel := None;
                      acousticModel := acousticModel rt;
                      window_tf := window_tf rt |} in
        match acousticModel rt1 with
        | Some _ =>
            if acoustic_dispose_throws then (rt1, Thrown)
            else ({| healthModel := None;
                     acousticModel := None;
                     window_tf := window_tf rt |}, Normal tt)
        | None => (rt1, Normal tt)
        end
  | None =>
      match acousticModel rt with
      | Some _ =>
          if acoustic_dispose_throws then (rt, Thrown)
          else ({| healthModel := healthModel rt;
                   acousticModel := None;
                   window_tf := window_tf rt |}, Normal tt)
      | None => (rt, Normal tt)
      end
  end.

End Disposal.

(** ** The rest of [src/app/api/sensors/ingest/route.ts] *)

Module Query.

Import Ingest.

(** The requests of a session, each with the instant at which it is
    served, applied to the map in order. *)
Fixpoint post_all (requests : list (RequestBody * Z))
    (sensorReadings : list (Json * list Reading)) : list (Json * list Reading) :=
  match requests with
  | [] => sensorReadings
  | (request, date_now) :: rest =>
      post_all rest (snd (POST request date_now sensorReadings))
  end.

(** [l.slice(start)] for an integral [start]. *)
Definition slice {A : Type} (start : Z) (l : list A) : list A :=
  let len := Z.of_nat (length l) in
  let from := if (start <? 0)%Z then Z.max (len + start) 0 else Z.min start len in
  drop (Z.to_nat from) l.

Inductive QueryBody :=
| QueryError (error : string)
| QueryReadings (success : bool) (plantId : option Z) (readingCount : Z)
    (readings : list Reading).

Record QueryResponse := {
  query_payload : QueryBody;
  query_status : Z
}.

Section Get.

(** [parseInt] of the host, on one argument; [None] is [NaN]. *)
Variable parseInt : string -> option Z.

(** [GET]. [plantId] and [limit] are [searchParams.get(...)], [None] being
    [null].  [-limit] is [NaN] when [limit] is, and [slice(NaN)] is
    [slice(0)].  A [NaN] key is in no map built from JSON bodies. *)
Definition GET (plantId limit : option string)
    (sensorReadings : list (Json * list Reading)) : QueryResponse :=
  let limit :=
    parseInt (match limit with Some l => l | None => "100"%string end) in
  match plantId with
  | None | Some EmptyString =>
      {| query_payload := QueryError "plantId is required"; query_status := 400 |}
  | Some plantId =>
      let plantIdNum := parseInt plantId in
      let readings :=
        match plantIdNum with
        | Some n =>
            match map_get (JNumber (inject_Z n)) sensorReadings with
            | Some readings => readings
            | None => []
            end
        | None => []
        end in
      let recentReadings :=
        slice (match limit with Some n => - n | None => 0 end)%Z readings in
      {| query_payload :=
           QueryReadings true plantIdNum (Z.of_nat (length recentReadings))
             recentReadings;
         query_status := 200 |}
  end.

End Get.

(** The readings stored for the plant with the numeric id [n]. *)
Definition history_of (n : Z) (sensorReadings : list (Json * list Reading))
    : list Reading :=
  match map_get (JNumber (inject_Z n)) sensorReadings with
  | Some readings => readings
  | None => []
  end.

(** The history of a plant after one more reading: the oldest reading
    leaves when 1000 are already held. *)
Definition pushed (old : list Reading) (reading : Reading) : list Reading :=
  if (length old <? 1000)%nat then old ++ [reading] else tail old ++ [reading].

(** No history is longer than the retention bound. *)
Definition histories_bounded (sensorReadings : list (Json * list Reading)) : Prop :=
  forall key readings,
    In (key, readings) sensorReadings -> (length readings <= 1000)%nat.

Definition is_number (j : Json) : bool :=
  match j with
  | JNumber _ => true
  | _ => false
  end.

End Query.

(** ** JavaScript numbers with [NaN] and the infinities *)

(** The two functions of [src/lib/tfModels.ts] receive numbers from their
    callers and from a model, and one of them divides by a computed value;
    what they return on [NaN], on an infinity and on a zero divisor is part
    of their behaviour.  [Number.t] adds these values to the rationals, with
    the arithmetic of IEEE 754 on them.  A zero is the positive zero. *)

Module Number.

Inductive t :=
| NaN
| Inf (positive : bool)
| Fin (q : Q).

Definition is_positive (q : Q) : bool :=
  if Qlt_le_dec q 0 then false else true.

Definition opp (x : t) : t :=
  match x with
  | NaN => NaN
  | Inf s => Inf (negb s)
  | Fin q => Fin (- q)
  end.

Definition add (x y : t) : t :=
  match x, y with
  | NaN, _ | _, NaN => NaN
  | Inf s, Inf s' => if Bool.eqb s s' then Inf s else NaN
  | Inf s, Fin _ | Fin _, Inf s => Inf s
  | Fin a, Fin b => Fin (a + b)
  end.

Definition sub (x y : t) : t := add x (opp y).

Definition mul (x y : t) : t :=
  match x, y with
  | NaN, _ | _, NaN => NaN
  | Inf s, Inf s' => Inf (Bool.eqb s s')
  | Inf s, Fin q | Fin q, Inf s =>
      if Qeq_bool q 0 then NaN else Inf (Bool.eqb s (is_positive q))
  | Fin a, Fin b => Fin (a * b)
  end.

Definition div (x y : t) : t :=
  match x, y with
  | NaN, _ | _, NaN => NaN
  | Inf _, Inf _ => NaN
  | Inf s, Fin q => Inf (Bool.eqb s (is_positive q))
  | Fin _, Inf _ => Fin 0
  | Fin a, Fin b =>
      if Qeq_bool b 0
      then if Qeq_bool a 0 then NaN else Inf (is_positive a)
      else Fin (a / b)
  end.

(** [Math.abs], [Math.round], [Math.sqrt], [Math.max], [Math.min]. *)
Definition abs (x : t) : t :=
  match x with
  | NaN => NaN
  | Inf _ => Inf true
  | Fin q => Fin (JSMath.abs q)
  end.

Definition round (x : t) : t :=
  match x with
  | Fin q => Fin (JSMath.round q)
  | _ => x
  end.

Definition sqrt (x : t) : t :=
  match x with
  | NaN => NaN
  | Inf true => Inf true
  | Inf false => NaN
  | Fin q => if Qlt_le_dec q 0 then NaN else Fin (JSMath.sqrt q)
  end.

Definition max (x y : t) : t :=
  match x, y with
  | NaN, _ | _, NaN => NaN
  | Inf true, _ | _, Inf true => Inf true
  | Inf false, z | z, Inf false => z
  | Fin a, Fin b => Fin (JSMath.max a b)
  end.

Definition min (x y : t) : t :=
  match x, y with
  | NaN, _ | _, NaN => NaN
  | Inf false, _ | _, Inf false => Inf false
  | Inf true, z | z, Inf true => z
  | Fin a, Fin b => Fin (JSMath.min a b)
  end.

(** [x < y] and [x > y] as JavaScript evaluates them: false on [NaN]. *)
Definition ltb (x y : t) : bool :=
  match x, y with
  | NaN, _ | _, NaN => false
  | _, Inf false => false
  | Inf true, _ => false
  | Inf false, _ => true
  | Fin _, Inf true => true
  | Fin a, Fin b => if Qlt_le_dec a b then true else false
  end.

Definition gtb (x y : t) : bool := ltb y x.

(** [v || d]: [d] when [v] is [NaN] or zero. *)
Definition or_default (v d : t) : t :=
  match v with
  | NaN => d
  | Inf _ => v
  | Fin q => if Qeq_bool q 0 then d else v
  end.

(** The order of the numbers, for statements; nothing is comparable with
    [NaN]. *)
Definition le (x y : t) : Prop :=
  match x, y with
  | NaN, _ | _, NaN => False
  | Inf false, _ => True
  | _, Inf true => True
  | Inf true, _ => False
  | Fin _, Inf false => False
  | Fin a, Fin b => a <= b
  end.

(** [x] is a number between [lo] and [hi]. *)
Definition within (lo hi : Q) (x : t) : Prop :=
  exists q, x = Fin q /\ lo <= q /\ q <= hi.

End Number.

(** ** [src/lib/tfModels.ts] on all numbers *)

(** [predictPlantHealth] and [analyzeAcousticPattern] once more, statement by
    statement, on [Number.t].  The definitions of [TfModels] are their
    restriction to rational arguments, rational model outputs and a non-zero
    divisor (see [TfModelsNumFacts.predictPlantHealth_agrees] and
    [TfModelsNumFacts.analyzeAcousticPattern_agrees]). *)

Module TfModelsNum.

Import PredictionResult AcousticResult.

Record PlantHealthInput := {
  healthScore : Number.t;
  temperature : Number.t;
  humidity : Number.t
}.

Record Prediction := {
  predictedHealth : Number.t;
  prediction_confidence : Number.t;
  trend : Trend
}.

Record Acoustic := {
  stressLevel : Number.t;
  classification : Classification;
  acoustic_confidence : Number.t
}.

(** One inference of TensorFlow.js: it throws before [values] exists, or
    delivers the array [values]; then a [dispose] call may still throw.  An
    element the array does not have reads as [undefined], which the
    arithmetic and [Math.max] turn into [NaN] and [||] replaces as it
    replaces [NaN]: [values[i]] is [nth i values NaN]. *)
Inductive Inference :=
| InferenceThrows
| InferenceValues (values : list Number.t) (dispose_throws : bool).

Record Runtime := {
  healthModel : option (list Number.t -> Inference);
  acousticModel : option (list Number.t -> Inference);
  window_tf : bool
}.

(** A statement list that assigns to two local variables: their values when
    control leaves it, and whether it leaves by an exception. *)
Definition Block : Type := Number.t * Number.t -> (Number.t * Number.t) * bool.

(** [try { block } catch (e) { handler }] *)
Definition try_catch (block handler : Block) : Block :=
  fun locals =>
    let '(locals', threw) := block locals in
    if threw then handler locals' else (locals', false).

(** A handler that only calls [console.log]. *)
Definition log_only : Block := fun locals => (locals, false).

Definition hundred : Number.t := Number.Fin 100.

(** The body of the inner [try] of [predictPlantHealth]. *)
Definition health_model_block (model : list Number.t -> Inference)
    (input : PlantHealthInput) : Block :=
  fun locals =>
    match model [Number.div (healthScore input) hundred;
                 Number.div (temperature input) (Number.Fin 30);
                 Number.div (humidity input) hundred] with
    | InferenceThrows => (locals, true)
    | InferenceValues values dispose_throws =>
        ((Number.round (Number.mul (nth 0 values Number.NaN) hundred),
          Number.or_default (nth 1 values Number.NaN) (Number.Fin 0.75)),
         dispose_throws)
    end.

(** The else branch of [predictPlantHealth]. *)
Definition health_fallback_block (input : PlantHealthInput) : Block :=
  fun _ =>
    let tempScore :=
      Number.sub hundred
        (Number.mul
           (Number.abs (Number.sub (temperature input) (Number.Fin 23)))
           (Number.Fin 5)) in
    let humidityScore :=
      Number.sub hundred
        (Number.mul
           (Number.abs (Number.sub (humidity input) (Number.Fin 60)))
           (Number.Fin 1.5)) in
    ((Number.round
        (Number.add
           (Number.add (Number.mul (healthScore input) (Number.Fin 0.5))
              (Number.mul tempScore (Number.Fin 0.25)))
           (Number.mul humidityScore (Number.Fin 0.25))),
      Number.Fin 0.65), false).

(** The statements of [predictPlantHealth] up to "Determine trend". *)
Definition predictPlantHealth_locals (rt : Runtime) (input : PlantHealthInput)
    : (Number.t * Number.t) * bool :=
  let locals := (healthScore input, Number.Fin 0.7) in
  match healthModel rt, window_tf rt with
  | Some model, true => try_catch (health_model_block model input) log_only locals
  | _, _ => health_fallback_block input locals
  end.

Definition determine_trend (predictedHealth healthScore : Number.t) : Trend :=
  if Number.gtb predictedHealth (Number.add healthScore (Number.Fin 5))
  then improving
  else if Number.ltb predictedHealth (Number.sub healthScore (Number.Fin 5))
  then declining
  else stable.

(** The body of the outer [try] of [predictPlantHealth]. *)
Definition predictPlantHealth_try (rt : Runtime) (input : PlantHealthInput)
    : Completion Prediction :=
  let '((predictedHealth, confidence), threw) :=
    predictPlantHealth_locals rt input in
  if threw then Thrown
  else
    Normal {|
      predictedHealth :=
        Number.max (Number.Fin 0) (Number.min hundred predictedHealth);
      prediction_confidence :=
        Number.div (Number.round (Number.mul confidence hundred)) hundred;
      trend := determine_trend predictedHealth (healthScore input)
    |}.

Definition predictPlantHealth (rt : Runtime) (input : PlantHealthInput)
    : Prediction :=
  match predictPlantHealth_try rt input with
  | Normal result => result
  | Thrown =>
      {| predictedHealth := healthScore input;
         prediction_confidence := Number.Fin 0.5;
         trend := stable |}
  end.

(** [a.reduce((x, y) => x + y)] on a non-empty array. *)
Definition sum_reduce (l : list Number.t) : Number.t :=
  match l with
  | [] => Number.NaN
  | x :: rest => fold_left Number.add rest x
  end.

Definition length_of (l : list Number.t) : Number.t :=
  Number.Fin (inject_Z (Z.of_nat (length l))).

(** The body of the inner [try] of [analyzeAcousticPattern]. *)
Definition acoustic_model_block (model : list Number.t -> Inference)
    (audioFeatures : list Number.t) : Block :=
  fun locals =>
    match model audioFeatures with
    | InferenceThrows => (locals, true)
    | InferenceValues values dispose_throws =>
        ((Number.min (Number.Fin 1)
            (Number.max (Number.Fin 0) (nth 0 values Number.NaN)),
          Number.or_default (nth 1 values Number.NaN) (Number.Fin 0.65)),
         dispose_throws)
    end.

(** The else branch of [analyzeAcousticPattern]. *)
Definition acoustic_fallback_block (audioFeatures : list Number.t)
    (plantHealthScore : Number.t) : Block :=
  fun _ =>
    let mean := Number.div (sum_reduce audioFeatures) (length_of audioFeatures) in
    let variance :=
      Number.div
        (fold_left
           (fun sum val =>
              Number.add sum
                (Number.mul (Number.sub val mean) (Number.sub val mean)))
           audioFeatures (Number.Fin 0))
        (length_of audioFeatures) in
    let stressLevel :=
      Number.min (Number.Fin 1)
        (Number.div (Number.sqrt variance)
           (Number.add mean (Number.Fin 0.001))) in
    let healthFactor :=
      Number.sub (Number.Fin 1) (Number.div plantHealthScore hundred) in
    let stressLevel :=
      Number.add (Number.mul stressLevel (Number.Fin 0.7))
        (Number.mul healthFactor (Number.Fin 0.3)) in
    ((stressLevel,
      Number.add (Number.Fin 0.6)
        (Number.mul (Number.Fin 0.2)
           (Number.sub (Number.Fin 1)
              (Number.abs (Number.sub stressLevel (Number.Fin 0.5)))))),
     false).

(** The statements of [analyzeAcousticPattern] between the test for an
    empty array and "Classify stress level". *)
Definition analyzeAcousticPattern_locals (rt : Runtime)
    (audioFeatures : list Number.t) (plantHealthScore : Number.t)
    : (Number.t * Number.t) * bool :=
  let locals := (Number.Fin 0.5, Number.Fin 0.65) in
  match acousticModel rt, window_tf rt with
  | Some model, true =>
      try_catch (acoustic_model_block model audioFeatures) log_only locals
  | _, _ => acoustic_fallback_block audioFeatures plantHealthScore locals
  end.

Definition classify (stressLevel : Number.t) : Classification :=
  if Number.gtb stressLevel (Number.Fin 0.7) then high_stress
  else if Number.gtb stressLevel (Number.Fin 0.4) then moderate_stress
  else healthy.

Definition neutral : Acoustic :=
  {| stressLevel := Number.Fin 0.5;
     classification := healthy;
     acoustic_confidence := Number.Fin 0.5 |}.

Definition analyzeAcousticPattern_try (rt : Runtime)
    (audioFeatures : list Number.t) (plantHealthScore : Number.t)
    : Completion Acoustic :=
  match audioFeatures with
  | [] => Normal neutral
  | _ =>
      let '((stressLevel, confidence), threw) :=
        analyzeAcousticPattern_locals rt audioFeatures plantHealthScore in
      if threw then Thrown
      else
        Normal {|
          stressLevel :=
            Number.div (Number.round (Number.mul stressLevel (Number.Fin 1000)))
              (Number.Fin 1000);
          classification := classify stressLevel;
          acoustic_confidence :=
            Number.div (Number.round (Number.mul confidence hundred)) hundred
        |}
  end.

Definition analyzeAcousticPattern (rt : Runtime)
    (audioFeatures : list Number.t) (plantHealthScore : Number.t) : Acoustic :=
  match analyzeAcousticPattern_try rt audioFeatures plantHealthScore with
  | Normal result => result
  | Thrown => neutral
  end.

(** *** From the rational fragment *)

Definition of_numbers (l : list Q) : list Number.t := map Number.Fin l.

Definition of_inference (i : TfModels.Inference) : Inference :=
  match i with
  | TfModels.InferenceThrows => InferenceThrows
  | TfModels.InferenceValues v0 v1 dispose_throws =>
      InferenceValues [Number.Fin v0; Number.Fin v1] dispose_throws
  end.

(** A model on all numbers that answers as [model] does on rationals. *)
Definition extends_model (model : list Q -> TfModels.Inference)
    (model' : list Number.t -> Inference) : Prop :=
  forall args, model' (of_numbers args) = of_inference (model args).

Definition extends_option (model : option (list Q -> TfModels.Inference))
    (model' : option (list Number.t -> Inference)) : Prop :=
  match model, model' with
  | None, None => True
  | Some m, Some m' => extends_model m m'
  | _, _ => False
  end.

Definition extends_runtime (rt : TfModels.Runtime) (rt' : Runtime) : Prop :=
  extends_option (TfModels.healthModel rt) (healthModel rt')
  /\ extends_option (TfModels.acousticModel rt) (acousticModel rt')
  /\ TfModels.window_tf rt = window_tf rt'.

Definition of_input (input : TfModels.PlantHealthInput) : PlantHealthInput :=
  {| healthScore := Number.Fin (TfModels.healthScore input);
     temperature := Number.Fin (TfModels.temperature input);
     humidity := Number.Fin (TfModels.humidity input) |}.

Definition of_prediction (r : PredictionResult.t) : Prediction :=
  {| predictedHealth := Number.Fin (PredictionResult.predictedHealth r);
     prediction_confidence := Number.Fin (PredictionResult.confidence r);
     trend := PredictionResult.trend r |}.

Definition of_acoustic (r : AcousticResult.t) : Acoustic :=
  {| stressLevel := Number.Fin (AcousticResult.stressLevel r);
     classification := AcousticResult.classification r;
     acoustic_confidence := Number.Fin (AcousticResult.confidence r) |}.

(** Sample runtimes. *)
Definition no_model : Runtime :=
  {| healthModel := None; acousticModel := None; window_tf := false |}.

Definition throwing_models : Runtime :=
  {| healthModel := Some (fun _ => InferenceThrows);
     acousticModel := Some (fun _ => InferenceThrows);
     window_tf := true |}.

Definition constant_models (values : list Number.t) : Runtime :=
  {| healthModel := Some (fun _ => InferenceValues values false);
     acousticModel := Some (fun _ => InferenceValues values false);
     window_tf := true |}.

Definition plant (score t h : Number.t) : PlantHealthInput :=
  {| healthScore := score; temperature := t; humidity := h |}.

End TfModelsNum.

(** * Properties *)

(** ** Arithmetic of the [Math] functions *)

Module JSMathFacts.

Lemma abs_spec (x : Q) :
  (0 <= x /\ Qabs x == x) \/ (x <= 0 /\ Qabs x == - x).
Proof.
  destruct (Qlt_le_dec x 0) as [Hneg | Hpos].
  - right. split; [lra | apply Qabs_neg; lra].
  - left. split; [exact Hpos | apply Qabs_pos; exact Hpos].
Qed.

(** [minmax_lra] replaces every [max], [min] and [abs] of the goal by a fresh
    number together with its defining cases, then closes each case by linear
    arithmetic. *)
Ltac name_number t spec :=
  let q := fresh "q" in
  let H := fresh "Hq" in
  pose proof spec as H; set (q := t) in *; clearbody q.

Ltac minmax_abstract :=
  unfold JSMath.max, JSMath.min, JSMath.abs in *;
  repeat match goal with
    | |- context [Qmax ?a ?b] => name_number (Qmax a b) (Q.max_spec a b)
    | |- context [Qmin ?a ?b] => name_number (Qmin a b) (Q.min_spec a b)
    | |- context [Qabs ?a] => name_number (Qabs a) (abs_spec a)
    | _ : context [Qmax ?a ?b] |- _ => name_number (Qmax a b) (Q.max_spec a b)
    | _ : context [Qmin ?a ?b] |- _ => name_number (Qmin a b) (Q.min_spec a b)
    | _ : context [Qabs ?a] |- _ => name_number (Qabs a) (abs_spec a)
    end.

Ltac split_cases :=
  repeat match goal with
    | H : _ \/ _ |- _ => destruct H
    | H : _ /\ _ |- _ => destruct H
    end.

(** Linear arithmetic does not read a division: a division by a constant is
    turned into the product with its inverse. *)
Ltac closed_number c :=
  match c with
  | context [?x] => is_var x; fail 1
  | _ => idtac
  end.

Ltac div_consts :=
  unfold Qdiv in *;
  repeat match goal with
    | |- context [Qinv ?c] =>
        closed_number c;
        let v := eval vm_compute in (Qinv c) in
        progress change (Qinv c) with v
    | H : context [Qinv ?c] |- _ =>
        closed_number c;
        let v := eval vm_compute in (Qinv c) in
        progress change (Qinv c) with v in H
    end.

Ltac qlra := div_consts; lra.

Ltac minmax_lra := div_consts; minmax_abstract; intros; split_cases; lra.

Lemma round_monotone (x y : Q) : x <= y -> JSMath.round x <= JSMath.round y.
Proof.
  intros Hxy. unfold JSMath.round. rewrite <- Zle_Qle.
  apply Qfloor_resp_le. lra.
Qed.

Lemma round_integer (n : Z) : JSMath.round (inject_Z n) = inject_Z n.
Proof.
  unfold JSMath.round. f_equal.
  assert (Hlo : (n <= Qfloor (inject_Z n + (1 # 2)))%Z).
  { rewrite <- (Qfloor_Z n) at 1. apply Qfloor_resp_le. lra. }
  assert (Hhi : (Qfloor (inject_Z n + (1 # 2)) < n + 1)%Z).
  { rewrite Zlt_Qlt. eapply Qle_lt_trans; [apply Qfloor_le |].
    rewrite inject_Z_plus. change (inject_Z 1) with 1. lra. }
  lia.
Qed.

(** The rounded value is within one half of the argument. *)
Lemma round_near (x : Q) : x - (1 # 2) < JSMath.round x /\ JSMath.round x <= x + (1 # 2).
Proof.
  unfold JSMath.round. split.
  - pose proof (Qlt_floor (x + (1 # 2))) as H.
    rewrite inject_Z_plus in H. change (inject_Z 1) with 1 in H. lra.
  - apply Qfloor_le.
Qed.

Lemma sqrt_nonneg (x : Q) : 0 <= JSMath.sqrt x.
Proof.
  unfold JSMath.sqrt, Qle. simpl. rewrite Z.mul_1_r. apply Z.sqrt_nonneg.
Qed.

(** A date built from a time value that is not after an integral instant is
    not after that instant. *)
Lemma time_clip_le (t : Q) (n : Z) : t <= inject_Z n -> (JSMath.time_clip t <= n)%Z.
Proof.
  intros Ht. unfold JSMath.time_clip. destruct (Qlt_le_dec t 0).
  - unfold Qceiling.
    assert (H : (- n <= Qfloor (- t))%Z).
    { rewrite <- (Qfloor_Z (- n)). apply Qfloor_resp_le.
      rewrite inject_Z_opp. lra. }
    lia.
  - rewrite <- (Qfloor_Z n). apply Qfloor_resp_le. exact Ht.
Qed.

End JSMathFacts.

(** ** The simulator *)

Module SimulatorFacts.

Import PlantState Simulator JSMathFacts.

(** [generateSensorReading] always returns: the state it reads exists. *)
Lemma generateSensorReading_advance (d : StepDraws) (id : Z)
    (states : gmap Z PlantState.t) :
  generateSensorReading d id states =
    Some (display d id (advance d (working_state d id states)),
          <[ id := advance d (working_state d id states) ]> states).
Proof.
  unfold generateSensorReading, working_state, initializeSensorState.
  destruct (states !! id) as [s |] eqn:Hs.
  - rewrite Hs. reflexivity.
  - rewrite lookup_insert_eq. rewrite insert_insert_eq. reflexivity.
Qed.

Lemma generateSensorReading_returns (d : StepDraws) (id : Z)
    (states : gmap Z PlantState.t) :
  exists reading states', generateSensorReading d id states = Some (reading, states').
Proof. rewrite generateSensorReading_advance. eauto. Qed.

Lemma clamp_range (lo hi x : Q) :
  lo <= hi -> lo <= clamp lo hi x /\ clamp lo hi x <= hi.
Proof. intros Hlohi. unfold clamp. split; minmax_lra. Qed.

Lemma stress_range (t h m : Q) :
  0 <= JSMath.min 1
         ((JSMath.abs (t - ideal_temperature) / 10
           + JSMath.abs (h - ideal_humidity) / 30
           + JSMath.abs (m - ideal_soilMoisture) / 50) / 3)
  /\ JSMath.min 1
         ((JSMath.abs (t - ideal_temperature) / 10
           + JSMath.abs (h - ideal_humidity) / 30
           + JSMath.abs (m - ideal_soilMoisture) / 50) / 3) <= 1.
Proof.
  unfold JSMath.abs.
  pose proof (Qabs_nonneg (t - ideal_temperature)) as Ht.
  pose proof (Qabs_nonneg (h - ideal_humidity)) as Hh.
  pose proof (Qabs_nonneg (m - ideal_soilMoisture)) as Hm.
  revert Ht Hh Hm.
  generalize (Qabs (t - ideal_temperature)), (Qabs (h - ideal_humidity)),
    (Qabs (m - ideal_soilMoisture)).
  intros a b c Ha Hb Hc. split; minmax_lra.
Qed.

Lemma hours_nonneg (t0 t1 : Z) :
  (t0 <= t1)%Z -> 0 <= inject_Z (t1 - t0) / (1000 * 60 * 60) * 0.15.
Proof.
  intros Hle.
  assert (H : 0 <= inject_Z (t1 - t0)).
  { change 0 with (inject_Z 0). rewrite <- Zle_Qle. lia. }
  revert H. generalize (inject_Z (t1 - t0)). intros q Hq. qlra.
Qed.

(** One call keeps every metric in its hard range, whatever the stored
    values were, provided the plant was not watered after the clock reading
    of the decay. *)
Lemma advance_in_hard_ranges (d : StepDraws) (s : PlantState.t) :
  (lastWatered s <= now d)%Z -> in_hard_ranges (advance d s).
Proof.
  intros Hpast. pose proof (hours_nonneg _ _ Hpast) as Hdecay.
  constructor; unfold advance; cbn [temperature humidity soilMoisture
    lightIntensity stressLevel].
  - apply clamp_range. lra.
  - apply clamp_range. lra.
  - revert Hdecay.
    generalize (inject_Z (now d - lastWatered s) / (1000 * 60 * 60) * 0.15).
    intros decay Hdecay.
    pose proof (clamp_range 10 100
      (soilMoisture s + (v_soilMoisture d - 0.5) * 3)) as Hc.
    revert Hc. generalize (clamp 10 100
      (soilMoisture s + (v_soilMoisture d - 0.5) * 3)).
    intros c Hc. assert (H : 10 <= 100) by lra. specialize (Hc H).
    split; minmax_lra.
  - apply clamp_range. lra.
  - apply stress_range.
Qed.

Lemma fresh_state_watered_in_past (d : InitDraws) (id : Z) (optimalTemp : Q) :
  init_draws_ok d -> (lastWatered (fresh_state d id optimalTemp) <= init_now d)%Z.
Proof.
  intros [_ _ _ _ [Hlo Hhi] _]. cbn [fresh_state lastWatered].
  apply time_clip_le. nra.
Qed.

Lemma working_state_watered_in_past (w : World) (d : StepDraws) (id : Z) :
  watered_in_past w -> step_draws_ok d ->
  (clock w <= init_now (first d))%Z ->
  (lastWatered (working_state d id (plantStates w)) <= now d)%Z.
Proof.
  intros Hinv Hd Hclock. unfold working_state.
  pose proof (ok_first_now d Hd) as Hnow.
  destruct (plantStates w !! id) as [s |] eqn:Hs.
  - specialize (Hinv id s Hs). lia.
  - pose proof (fresh_state_watered_in_past (first d) id 22 (ok_first d Hd)). lia.
Qed.

Lemma step_watered_in_past (w w' : World) (c : Call) :
  step w c w' -> watered_in_past w -> watered_in_past w'.
Proof.
  intros Hstep Hinv.
  destruct Hstep as [id optimalTemp d Hd Hclock
                    | id d reading states' Hd Hclock Hgen
                    | id date_now Hclock
                    | id ].
  - intros j s. cbn [plantStates clock]. unfold initializeSensorState.
    rewrite lookup_insert. case_decide as Hj.
    + intros [= <-]. apply fresh_state_watered_in_past. exact Hd.
    + intros Hs. specialize (Hinv j s Hs). lia.
  - rewrite generateSensorReading_advance in Hgen.
    injection Hgen as _ <-.
    pose proof (working_state_watered_in_past w d id Hinv Hd Hclock) as Hws.
    pose proof (ok_now_stamp d Hd) as Hstamp.
    pose proof (ok_first_now d Hd) as Hnow.
    intros j s. cbn [plantStates clock].
    rewrite lookup_insert. case_decide as Hj.
    + intros [= <-]. cbn [advance lastWatered]. lia.
    + intros Hs. specialize (Hinv j s Hs). lia.
  - intros j s. cbn [plantStates clock]. unfold waterPlant.
    destruct (plantStates w !! id) as [s0 |] eqn:Hs0.
    + rewrite lookup_insert. case_decide as Hj.
      * intros [= <-]. cbn [lastWatered]. lia.
      * intros Hs. specialize (Hinv j s Hs). lia.
    + intros Hs. specialize (Hinv j s Hs). lia.
  - exact Hinv.
Qed.

Lemma reachable_watered_in_past (w : World) : reachable w -> watered_in_past w.
Proof.
  induction 1 as [t0 | w c w' Hreach IH Hstep].
  - intros id s. cbn [plantStates]. rewrite lookup_empty. discriminate.
  - eapply step_watered_in_past; eassumption.
Qed.

(** C4. Along every run of the simulator, each call of
    [generateSensorReading] returns and leaves the stored state of its plant
    with temperature in [15,35], humidity in [20,95], soil moisture in
    [10,100], light in [0,1000] and stress level in [0,1]. *)
Theorem C4_metrics_within_hard_ranges (w : World) (id : Z) (d : StepDraws) :
  reachable w ->
  step_draws_ok d ->
  (clock w <= init_now (first d))%Z ->
  exists reading states' s',
    generateSensorReading d id (plantStates w) = Some (reading, states')
    /\ getPlantState id states' = Some s'
    /\ in_hard_ranges s'.
Proof.
  intros Hreach Hd Hclock.
  rewrite generateSensorReading_advance.
  eexists _, _, _. split; [reflexivity |]. split.
  - unfold getPlantState. apply lookup_insert_eq.
  - apply advance_in_hard_ranges.
    apply working_state_watered_in_past; auto.
    apply reachable_watered_in_past. exact Hreach.
Qed.

Lemma init_draws_ok_sample (u : Q) (t : Z) :
  unit_draw u -> init_draws_ok (Samples.init_draws u t).
Proof. intros Hu. constructor; cbn; try exact Hu; unfold unit_draw; lra. Qed.

Lemma step_draws_ok_sample (x v : Q) (t : Z) :
  unit_draw x -> unit_draw v -> step_draws_ok (Samples.step_draws x v t).
Proof.
  intros Hx Hv. constructor; cbn; try assumption; try lia.
  - apply init_draws_ok_sample. unfold unit_draw. lra.
  - intros _. unfold unit_draw. lra.
Qed.

Lemma C4_metrics_within_hard_ranges_witness :
  exists reading states' s',
    generateSensorReading (Samples.step_draws (1 # 4) (9 # 10) 1700000002000) 7
      (plantStates Samples.start) = Some (reading, states')
    /\ getPlantState 7 states' = Some s'
    /\ in_hard_ranges s'.
Proof.
  apply (C4_metrics_within_hard_ranges Samples.start 7
           (Samples.step_draws (1 # 4) (9 # 10) 1700000002000)).
  - apply reachable_start.
  - apply step_draws_ok_sample; unfold unit_draw; lra.
  - cbn. lia.
Defined.

Lemma reachable_world_read : reachable Samples.world_read.
Proof.
  eapply reachable_step with (c := CallGenerate 1 _).
  - eapply reachable_step with (c := CallWater 1 1700000001000).
    + eapply reachable_step
        with (c := CallInitialize 1 22 (Samples.init_draws (3 # 4) 1700000000000)).
      * apply (reachable_start 1700000000000).
      * apply step_initialize.
        -- apply init_draws_ok_sample. unfold unit_draw. lra.
        -- cbn. lia.
    + apply step_water. cbn. lia.
  - eapply (step_generate _ 1 (Samples.step_draws (1 # 2) (9 # 10) 1700000002000)).
    + apply step_draws_ok_sample; unfold unit_draw; lra.
    + cbn. lia.
    + apply generateSensorReading_advance.
Qed.

(** The effect of [waterPlant] on a plant that has a state. *)
Lemma waterPlant_lookup (date_now id : Z) (states : gmap Z PlantState.t)
    (s : PlantState.t) :
  states !! id = Some s ->
  exists s', waterPlant date_now id states !! id = Some s'
    /\ soilMoisture s' = JSMath.min 90 (soilMoisture s + 40)
    /\ lastWatered s' = date_now
    /\ temperature s' = temperature s /\ humidity s' = humidity s
    /\ lightIntensity s' = lightIntensity s /\ stressLevel s' = stressLevel s.
Proof.
  intros Hs. unfold waterPlant. rewrite Hs. rewrite lookup_insert_eq.
  eexists. split; [reflexivity |]. cbn. tauto.
Qed.

(** C2, as stated, fails: after initialisation, watering and one reading with
    an upward moisture draw, plant 1 holds a soil moisture above 90, and
    watering it again lowers the value to 90. *)
Lemma C2_watering_can_lower_moisture :
  reachable Samples.world_read
  /\ exists s s',
      getPlantState 1 (plantStates Samples.world_read) = Some s
      /\ getPlantState 1
           (waterPlant 1700000003000 1 (plantStates Samples.world_read)) = Some s'
      /\ soilMoisture s' < soilMoisture s.
Proof.
  split; [apply reachable_world_read |].
  eexists _, _. split; [| split].
  - vm_compute. reflexivity.
  - vm_compute. reflexivity.
  - vm_compute. reflexivity.
Qed.

(** C2, amended. For every stored state (reachable or not), [waterPlant]
    sets the soil moisture to [min(90, soilMoisture + 40)] and [lastWatered] to
    the current instant; afterwards the soil moisture is at most 90, and it is
    at least its previous value whenever that value was at most 90. *)
Theorem C2_waterPlant_effect (w : World) (id date_now : Z) (s : PlantState.t) :
  reachable w ->
  getPlantState id (plantStates w) = Some s ->
  exists s',
    getPlantState id (waterPlant date_now id (plantStates w)) = Some s'
    /\ soilMoisture s' == JSMath.min 90 (soilMoisture s + 40)
    /\ lastWatered s' = date_now
    /\ soilMoisture s' <= 90
    /\ (soilMoisture s <= 90 -> soilMoisture s <= soilMoisture s').
Proof.
  intros _ Hs. unfold getPlantState in *.
  destruct (waterPlant_lookup date_now id _ s Hs)
    as (s' & Hs' & Hm & Hw & _).
  exists s'. split; [exact Hs' |]. rewrite Hm.
  split; [reflexivity |]. split; [exact Hw |].
  split; [minmax_lra | intros Hle; minmax_lra].
Qed.

Lemma C2_waterPlant_effect_witness :
  exists s',
    getPlantState 1
      (waterPlant 1700000001000 1 Samples.states_initialized) = Some s'
    /\ soilMoisture s' == JSMath.min 90 ((60 + ((3 # 4) - 0.5) * 30) + 40)
    /\ lastWatered s' = 1700000001000%Z
    /\ soilMoisture s' <= 90
    /\ (60 + ((3 # 4) - 0.5) * 30 <= 90 ->
        60 + ((3 # 4) - 0.5) * 30 <= soilMoisture s').
Proof.
  apply (C2_waterPlant_effect
           {| clock := 1700000000000; plantStates := Samples.states_initialized |}
           1 1700000001000
           (fresh_state (Samples.init_draws (3 # 4) 1700000000000) 1 22)).
  - eapply reachable_step
      with (c := CallInitialize 1 22 (Samples.init_draws (3 # 4) 1700000000000)).
    + apply (reachable_start 1700000000000).
    + apply step_initialize.
      * apply init_draws_ok_sample. unfold unit_draw. lra.
      * cbn. lia.
  - apply lookup_insert_eq.
Defined.

Lemma round1_rounded_to (x : Q) : rounded_to (1 # 10) x (round1 x).
Proof.
  unfold rounded_to, round1. split.
  - exists (Qfloor (x * 10 + (1 # 2))). unfold JSMath.round. qlra.
  - pose proof (round_near (x * 10)) as [Hlo Hhi]. split; qlra.
Qed.

Lemma round_rounded_to (x : Q) : rounded_to 1 x (JSMath.round x).
Proof.
  unfold rounded_to. split.
  - exists (Qfloor (x + (1 # 2))). unfold JSMath.round. lra.
  - pose proof (round_near x) as [Hlo Hhi]. split; qlra.
Qed.

(** C9. The reading returned by [generateSensorReading] shows the stored
    temperature, humidity and soil moisture rounded to one decimal place and
    the stored light rounded to an integer; the stored state is the unrounded
    result of the update, and the next call starts from that unrounded
    state. *)
Theorem C9_display_rounding_stays_out_of_state (d : StepDraws) (id : Z)
    (states : gmap Z PlantState.t) :
  exists reading states' s',
    generateSensorReading d id states = Some (reading, states')
    /\ getPlantState id states' = Some s'
    /\ s' = advance d (working_state d id states)
    /\ rounded_to (1 # 10) (temperature s') (SensorReading.temperature reading)
    /\ rounded_to (1 # 10) (humidity s') (SensorReading.humidity reading)
    /\ rounded_to (1 # 10) (soilMoisture s') (SensorReading.soilMoisture reading)
    /\ rounded_to 1 (lightIntensity s') (SensorReading.lightIntensity reading)
    /\ forall d2, exists reading2 states2,
         generateSensorReading d2 id states' = Some (reading2, states2)
         /\ getPlantState id states2 = Some (advance d2 s').
Proof.
  rewrite generateSensorReading_advance.
  eexists _, _, _. split; [reflexivity |].
  unfold getPlantState. rewrite lookup_insert_eq.
  split; [reflexivity |]. split; [reflexivity |].
  cbn [display SensorReading.temperature SensorReading.humidity
       SensorReading.soilMoisture SensorReading.lightIntensity].
  repeat (split; [first [apply round1_rounded_to | apply round_rounded_to] |]).
  intros d2. rewrite generateSensorReading_advance.
  eexists _, _. split; [reflexivity |].
  rewrite lookup_insert_eq. unfold working_state.
  rewrite lookup_insert_eq. reflexivity.
Qed.

(** The distinction matters: on the sample run the stored soil moisture is
    not on the display grid, and a step taken from the displayed values would
    store another soil moisture than the step taken from the state. *)
Lemma stored_state_is_not_rounded :
  exists s, getPlantState 1 Samples.states_read = Some s
    /\ ~ soilMoisture s == round1 (soilMoisture s)
    /\ ~ soilMoisture
           (advance (Samples.step_draws (1 # 2) (1 # 2) 1700000002000) s)
         == soilMoisture
              (advance (Samples.step_draws (1 # 2) (1 # 2) 1700000002000)
                 (rounded_state s)).
Proof.
  eexists. split; [vm_compute; reflexivity |].
  split; vm_compute; discriminate.
Qed.

(** C10. [waterPlant] on a plant without state changes nothing and leaves
    [getPlantState] undefined; a call after which the plant has a state is a
    call of [initializeSensorState] or of [generateSensorReading] for that
    plant. *)
Theorem C10_water_without_state_is_noop (w : World) (id date_now : Z) :
  getPlantState id (plantStates w) = None ->
  waterPlant date_now id (plantStates w) = plantStates w
  /\ getPlantState id (waterPlant date_now id (plantStates w)) = None
  /\ forall c w',
       step w c w' ->
       is_Some (getPlantState id (plantStates w')) ->
       (exists optimalTemp d, c = CallInitialize id optimalTemp d)
       \/ (exists d, c = CallGenerate id d).
Proof.
  unfold getPlantState. intros Hnone.
  assert (Hsame : waterPlant date_now id (plantStates w) = plantStates w).
  { unfold waterPlant. rewrite Hnone. reflexivity. }
  split; [exact Hsame |]. split; [rewrite Hsame; exact Hnone |].
  intros c w' Hstep Hsome.
  destruct Hstep as [j optimalTemp d Hd Hclock
                    | j d reading states' Hd Hclock Hgen
                    | j t Hclock
                    | j ]; cbn [plantStates] in Hsome.
  - left. destruct (decide (j = id)) as [-> | Hne]; [eauto |].
    unfold initializeSensorState in Hsome.
    rewrite lookup_insert_ne in Hsome by exact Hne.
    rewrite Hnone in Hsome. destruct Hsome as [? [=]].
  - right. destruct (decide (j = id)) as [-> | Hne]; [eauto |].
    rewrite generateSensorReading_advance in Hgen. injection Hgen as _ <-.
    rewrite lookup_insert_ne in Hsome by exact Hne.
    rewrite Hnone in Hsome. destruct Hsome as [? [=]].
  - exfalso. unfold waterPlant in Hsome.
    destruct (plantStates w !! j) as [s0 |] eqn:Hj.
    + destruct (decide (j = id)) as [-> | Hne]; [congruence |].
      rewrite lookup_insert_ne in Hsome by exact Hne.
      rewrite Hnone in Hsome. destruct Hsome as [? [=]].
    + rewrite Hnone in Hsome. destruct Hsome as [? [=]].
  - exfalso. rewrite Hnone in Hsome. destruct Hsome as [? [=]].
Qed.

Lemma C10_water_without_state_is_noop_witness :
  waterPlant 1700000001000 1 (plantStates Samples.start)
    = plantStates Samples.start
  /\ getPlantState 1
       (waterPlant 1700000001000 1 (plantStates Samples.start)) = None
  /\ forall c w',
       step Samples.start c w' ->
       is_Some (getPlantState 1 (plantStates w')) ->
       (exists optimalTemp d, c = CallInitialize 1 optimalTemp d)
       \/ (exists d, c = CallGenerate 1 d).
Proof.
  apply (C10_water_without_state_is_noop Samples.start 1 1700000001000).
  reflexivity.
Defined.

End SimulatorFacts.

(** ** The prediction engine *)

Module TfModelsFacts.

Import TfModels PredictionResult JSMathFacts.

Lemma round_compat (x y : Q) : x == y -> JSMath.round x = JSMath.round y.
Proof.
  intros Hxy. unfold JSMath.round. f_equal. apply Qfloor_comp.
  rewrite Hxy. reflexivity.
Qed.

(** The outer [try] of [predictPlantHealth] never ends by an exception. *)
Lemma predictPlantHealth_try_normal (rt : Runtime) (input : PlantHealthInput) :
  predictPlantHealth_try rt input = Normal (predictPlantHealth rt input).
Proof.
  unfold predictPlantHealth, predictPlantHealth_try.
  destruct (predictPlantHealth_locals rt input). reflexivity.
Qed.

Lemma predictPlantHealth_fields (rt : Runtime) (input : PlantHealthInput) :
  predictedHealth (predictPlantHealth rt input)
    = JSMath.max 0 (JSMath.min 100 (fst (predictPlantHealth_locals rt input)))
  /\ confidence (predictPlantHealth rt input)
    = JSMath.round (snd (predictPlantHealth_locals rt input) * 100) / 100
  /\ trend (predictPlantHealth rt input)
    = determine_trend (fst (predictPlantHealth_locals rt input))
        (healthScore input).
Proof.
  unfold predictPlantHealth, predictPlantHealth_try.
  destruct (predictPlantHealth_locals rt input). cbn. tauto.
Qed.

(** Without a health model the locals are those of the fallback branch. *)
Lemma locals_without_model (rt : Runtime) (input : PlantHealthInput) :
  healthModel rt = None ->
  predictPlantHealth_locals rt input =
    (JSMath.round
       (healthScore input * 0.5
        + (100 - JSMath.abs (temperature input - 23) * 5) * 0.25
        + (100 - JSMath.abs (humidity input - 60) * 1.5) * 0.25),
     0.65).
Proof. intros Hnone. unfold predictPlantHealth_locals. rewrite Hnone. reflexivity. Qed.

Lemma determine_trend_improving (p h : Q) :
  determine_trend p h = improving <-> h + 5 < p.
Proof.
  unfold determine_trend.
  destruct (Qlt_le_dec (h + 5) p); [tauto |].
  destruct (Qlt_le_dec p (h - 5)); split; try discriminate; lra.
Qed.

Lemma determine_trend_declining (p h : Q) :
  determine_trend p h = declining <-> p < h - 5.
Proof.
  unfold determine_trend.
  destruct (Qlt_le_dec (h + 5) p); [split; [discriminate | lra] |].
  destruct (Qlt_le_dec p (h - 5)); split; try discriminate; try tauto; lra.
Qed.

Lemma determine_trend_stable (p h : Q) :
  determine_trend p h = stable <-> h - 5 <= p /\ p <= h + 5.
Proof.
  unfold determine_trend.
  destruct (Qlt_le_dec (h + 5) p); [split; [discriminate | lra] |].
  destruct (Qlt_le_dec p (h - 5)); split; try discriminate; try tauto; lra.
Qed.

(** At the ideal temperature and humidity both partial scores are 100 and
    the fallback predicts [round(score/2 + 50)], a value between 50 and 100. *)
Lemma fallback_at_ideal (rt : Runtime) (score : Q) :
  healthModel rt = None ->
  fst (predictPlantHealth_locals rt (Samples.plant score 23 60))
    = JSMath.round (score * 0.5 + 50).
Proof.
  intros Hnone. rewrite locals_without_model by exact Hnone.
  cbn [fst Samples.plant healthScore temperature humidity].
  apply round_compat. minmax_lra.
Qed.

Lemma round_half_plus_50_range (score : Q) :
  0 <= score -> score <= 100 ->
  50 <= JSMath.round (score * 0.5 + 50) /\ JSMath.round (score * 0.5 + 50) <= 100.
Proof.
  intros H0 H100. split.
  - change 50 with (inject_Z 50) at 1. rewrite <- (round_integer 50).
    apply round_monotone. change (inject_Z 50) with 50. lra.
  - change 100 with (inject_Z 100) at 1. rewrite <- (round_integer 100).
    apply round_monotone. change (inject_Z 100) with 100. lra.
Qed.

Lemma round_half_plus_50_fixpoint (score : Q) :
  score <= 100 ->
  JSMath.round (score * 0.5 + 50) == score <-> score == 100.
Proof.
  intros Hmax. split.
  - intros Hfix.
    pose proof (round_near (score * 0.5 + 50)) as [Hlo Hhi].
    unfold JSMath.round in *.
    set (k := Qfloor (score * 0.5 + 50 + (1 # 2))) in *.
    assert (Hk : (99 < k <= 101)%Z).
    { split.
      - rewrite Zlt_Qlt. change (inject_Z 99) with 99. lra.
      - rewrite Zle_Qle. change (inject_Z 101) with 101. lra. }
    assert (Hcases : k = 100%Z \/ k = 101%Z) by lia.
    destruct Hcases as [Hk100 | Hk101].
    + rewrite Hk100 in Hfix. change (inject_Z 100) with 100 in Hfix. lra.
    + exfalso. rewrite Hk101 in Hfix.
      change (inject_Z 101) with 101 in Hfix. lra.
  - intros H100.
    rewrite (round_compat (score * 0.5 + 50) (inject_Z 100)).
    + rewrite round_integer. change (inject_Z 100) with 100. lra.
    + change (inject_Z 100) with 100. lra.
Qed.

(** C1, as stated, fails: with score 0 at the ideal temperature and humidity
    the fallback predicts 50, not 0 (and reports an improving trend). *)
Lemma C1_ideal_conditions_do_not_return_score :
  predictedHealth (predictPlantHealth no_model (Samples.plant 0 23 60)) == 50
  /\ ~ predictedHealth (predictPlantHealth no_model (Samples.plant 0 23 60)) == 0
  /\ trend (predictPlantHealth no_model (Samples.plant 0 23 60)) = improving.
Proof.
  split; [| split].
  - vm_compute. reflexivity.
  - vm_compute. discriminate.
  - vm_compute. reflexivity.
Qed.

(** C1, amended. For every score in [0,100] and with no health model
    loaded, [predictPlantHealth] at temperature 23 and humidity 60 returns
    [round(score/2 + 50)] (both partial scores are 100); this equals the score
    exactly when the score is 100, and the trend is then [stable]. *)
Theorem C1_ideal_conditions_fallback (rt : Runtime) (score : Q) :
  healthModel rt = None ->
  0 <= score -> score <= 100 ->
  predictedHealth (predictPlantHealth rt (Samples.plant score 23 60))
    == JSMath.round (score * 0.5 + 50)
  /\ (predictedHealth (predictPlantHealth rt (Samples.plant score 23 60)) == score
      <-> score == 100)
  /\ (score == 100 ->
      trend (predictPlantHealth rt (Samples.plant score 23 60)) = stable).
Proof.
  intros Hnone H0 H100.
  destruct (predictPlantHealth_fields rt (Samples.plant score 23 60))
    as (Hp & _ & Ht).
  rewrite Hp, Ht, (fallback_at_ideal rt score Hnone). clear Hp Ht.
  pose proof (round_half_plus_50_range score H0 H100) as [Hlo Hhi].
  pose proof (round_half_plus_50_fixpoint score H100) as Hfix.
  assert (Hclamp :
    JSMath.max 0 (JSMath.min 100 (JSMath.round (score * 0.5 + 50)))
      == JSMath.round (score * 0.5 + 50)).
  { revert Hlo Hhi. generalize (JSMath.round (score * 0.5 + 50)).
    intros r Hlo Hhi. minmax_lra. }
  split; [exact Hclamp |]. split.
  - rewrite Hclamp. exact Hfix.
  - intros Hs. apply determine_trend_stable.
    cbn [Samples.plant healthScore].
    apply Hfix in Hs as Hr. lra.
Qed.

Lemma C1_ideal_conditions_fallback_witness :
  predictedHealth (predictPlantHealth no_model (Samples.plant 100 23 60))
    == JSMath.round (100 * 0.5 + 50)
  /\ (predictedHealth (predictPlantHealth no_model (Samples.plant 100 23 60)) == 100
      <-> 100 == 100)
  /\ (100 == 100 ->
      trend (predictPlantHealth no_model (Samples.plant 100 23 60)) = stable).
Proof.
  apply (C1_ideal_conditions_fallback no_model 100).
  - reflexivity.
  - lra.
  - lra.
Defined.

(** C5, as stated, fails: for score 0 at temperature 70 the fallback
    computes -9, so the trend is [declining], while the returned value is the
    clamped 0, which is not below 0 - 5. *)
Lemma C5_trend_not_from_returned_value :
  fst (predictPlantHealth_locals no_model (Samples.plant 0 70 60)) == -9
  /\ trend (predictPlantHealth no_model (Samples.plant 0 70 60)) = declining
  /\ predictedHealth (predictPlantHealth no_model (Samples.plant 0 70 60)) == 0
  /\ ~ predictedHealth (predictPlantHealth no_model (Samples.plant 0 70 60))
        < healthScore (Samples.plant 0 70 60) - 5.
Proof.
  split; [| split; [| split]].
  - vm_compute. reflexivity.
  - vm_compute. reflexivity.
  - vm_compute. reflexivity.
  - vm_compute. discriminate.
Qed.

(** The same on the model path: a model output of 1.2 for score 100 is
    classified [improving] although the returned value is 100. *)
Lemma trend_not_from_returned_value_model :
  trend (predictPlantHealth (Samples.constant_models 1.2 0.9)
           (Samples.plant 100 23 60)) = improving
  /\ predictedHealth (predictPlantHealth (Samples.constant_models 1.2 0.9)
                        (Samples.plant 100 23 60)) == 100.
Proof. split; vm_compute; reflexivity. Qed.

(** C5, amended. On both paths the returned [predictedHealth] is the
    prediction clamped to [0,100], and the trend is classified from the
    prediction before clamping: [improving] iff it exceeds the score by more
    than 5, [declining] iff it is more than 5 below, [stable] otherwise.  When
    the prediction already lies in [0,100] the same holds of the returned
    value. *)
Theorem C5_trend_from_unclamped_prediction (rt : Runtime) (input : PlantHealthInput) :
  let raw := fst (predictPlantHealth_locals rt input) in
  let result := predictPlantHealth rt input in
  predictedHealth result = JSMath.max 0 (JSMath.min 100 raw)
  /\ (trend result = improving <-> healthScore input + 5 < raw)
  /\ (trend result = declining <-> raw < healthScore input - 5)
  /\ (trend result = stable
      <-> healthScore input - 5 <= raw /\ raw <= healthScore input + 5)
  /\ (0 <= raw /\ raw <= 100 ->
      predictedHealth result == raw
      /\ (trend result = improving
          <-> healthScore input + 5 < predictedHealth result)
      /\ (trend result = declining
          <-> predictedHealth result < healthScore input - 5)).
Proof.
  intros raw result.
  destruct (predictPlantHealth_fields rt input) as (Hp & _ & Ht).
  fold raw in Hp, Ht. fold result in Hp, Ht.
  rewrite Ht, Hp.
  split; [reflexivity |].
  split; [apply determine_trend_improving |].
  split; [apply determine_trend_declining |].
  split; [apply determine_trend_stable |].
  intros [Hlo Hhi].
  assert (Hclamp : JSMath.max 0 (JSMath.min 100 raw) == raw).
  { revert Hlo Hhi. generalize raw. intros r Hlo Hhi. minmax_lra. }
  split; [exact Hclamp |]. rewrite Hclamp.
  split; [apply determine_trend_improving | apply determine_trend_declining].
Qed.

Lemma C5_trend_from_unclamped_prediction_witness :
  let raw := fst (predictPlantHealth_locals no_model (Samples.plant 80 30 60)) in
  let result := predictPlantHealth no_model (Samples.plant 80 30 60) in
  predictedHealth result == raw
  /\ (trend result = improving <-> 80 + 5 < predictedHealth result)
  /\ (trend result = declining <-> predictedHealth result < 80 - 5).
Proof.
  destruct (C5_trend_from_unclamped_prediction no_model (Samples.plant 80 30 60))
    as (_ & _ & _ & _ & Hin).
  apply Hin. split; vm_compute; discriminate.
Defined.

(** When the inference throws before delivering values, the locals keep
    their initial values: the score and 0.7. *)
Lemma locals_when_inference_throws (rt : Runtime) (input : PlantHealthInput)
    (model : list Q -> Inference) :
  healthModel rt = Some model -> window_tf rt = true ->
  model [healthScore input / 100; temperature input / 30; humidity input / 100]
    = InferenceThrows ->
  predictPlantHealth_locals rt input = (healthScore input, 0.7).
Proof.
  intros Hm Htf Hthrow. unfold predictPlantHealth_locals.
  rewrite Hm, Htf, Hthrow. reflexivity.
Qed.

Lemma inference_error_result (rt : Runtime) (input : PlantHealthInput)
    (model : list Q -> Inference) :
  healthModel rt = Some model -> window_tf rt = true ->
  model [healthScore input / 100; temperature input / 30; humidity input / 100]
    = InferenceThrows ->
  predictedHealth (predictPlantHealth rt input)
    = JSMath.max 0 (JSMath.min 100 (healthScore input))
  /\ confidence (predictPlantHealth rt input) == 0.7
  /\ trend (predictPlantHealth rt input) = stable.
Proof.
  intros Hm Htf Hthrow.
  destruct (predictPlantHealth_fields rt input) as (Hp & Hc & Ht).
  rewrite (locals_when_inference_throws rt input model Hm Htf Hthrow) in Hp, Hc, Ht.
  cbn [fst snd] in Hp, Hc, Ht. rewrite Hp, Hc, Ht.
  split; [reflexivity |]. split; [vm_compute; reflexivity |].
  apply determine_trend_stable. lra.
Qed.

(** C3, evaluated on the code: with a loaded model whose inference throws,
    [predictPlantHealth] for score 80, temperature 30, humidity 60 returns
    80 with confidence 0.7, where the fallback computation returns 81 with
    confidence 0.65.  No exception reaches the caller. *)
Theorem C3_inference_error_skips_fallback :
  let input := Samples.plant 80 30 60 in
  let result := predictPlantHealth Samples.throwing_models input in
  predictPlantHealth_try Samples.throwing_models input = Normal result
  /\ predictedHealth result == 80 /\ confidence result == 0.7
  /\ trend result = stable
  /\ predictedHealth (fallback_prediction input) == 81
  /\ confidence (fallback_prediction input) == 0.65.
Proof.
  cbv zeta. split; [apply predictPlantHealth_try_normal |].
  repeat split; vm_compute; reflexivity.
Qed.

(** On the rational fragment: an inference that throws yields confidence
    0.7, not the 0.5 of the catch-all handler. *)
Lemma inference_error_confidence :
  let result := predictPlantHealth Samples.throwing_models (Samples.plant 80 23 60) in
  confidence result == 0.7
  /\ ~ (predictedHealth result == 80 /\ confidence result == 0.5
        /\ trend result = stable).
Proof.
  cbv zeta. split.
  - vm_compute. reflexivity.
  - intros (_ & Hc & _). vm_compute in Hc. discriminate.
Qed.

(** On the rational fragment the returned [predictedHealth] is in [0,100],
    whatever the rational outputs of the model. *)
Lemma prediction_in_range (rt : Runtime) (input : PlantHealthInput) :
  0 <= predictedHealth (predictPlantHealth rt input)
  /\ predictedHealth (predictPlantHealth rt input) <= 100.
Proof.
  destruct (predictPlantHealth_fields rt input) as (Hp & _ & _).
  rewrite Hp. generalize (fst (predictPlantHealth_locals rt input)).
  intros raw. split; minmax_lra.
Qed.

(** The pathological input of the specification. *)
Example prediction_at_temperature_1000 :
  predictedHealth (predictPlantHealth no_model (Samples.plant 50 1000 60)) == 0.
Proof. vm_compute. reflexivity. Qed.

Import AcousticResult.

(** C7, evaluated on the code: without an acoustic model, the features
    [-3, -1] (mean -2, variance 1) and a health score of 100 give a
    coefficient of variation of 1/(-1.999), which the fallback bounds from
    above only; the returned stress level is -0.35, outside [0,1]. *)
Theorem C7_fallback_stress_below_zero :
  stressLevel (analyzeAcousticPattern no_model [-3; -1] 100) == -0.35
  /\ stressLevel (analyzeAcousticPattern no_model [-3; -1] 100) < 0
  /\ stressLevel
       (analyzeAcousticPattern (Samples.constant_models (-3) 0.9) [-3; -1] 100)
     == 0.
Proof. repeat split; vm_compute; reflexivity. Qed.

(** Health scores outside [0,100] leave the range as well, on either side. *)
Lemma fallback_stress_out_of_range_health :
  stressLevel (analyzeAcousticPattern no_model [5] 200) == -0.3
  /\ stressLevel (analyzeAcousticPattern no_model [5] (-1000)) == 3.3.
Proof. split; vm_compute; reflexivity. Qed.

Lemma quotient_nonneg (a b : Q) : 0 <= a -> 0 < b -> 0 <= a / b.
Proof.
  intros Ha Hb. unfold Qdiv. apply Qmult_le_0_compat; [exact Ha |].
  apply Qinv_le_0_compat. lra.
Qed.

Lemma unit_range_rounded (x : Q) :
  0 <= x -> x <= 1 ->
  0 <= JSMath.round (x * 1000) / 1000 /\ JSMath.round (x * 1000) / 1000 <= 1.
Proof.
  intros H0 H1.
  assert (Hlo : 0 <= JSMath.round (x * 1000)).
  { change 0 with (inject_Z 0) at 1. rewrite <- (round_integer 0).
    apply round_monotone. change (inject_Z 0) with 0. lra. }
  assert (Hhi : JSMath.round (x * 1000) <= 1000).
  { change 1000 with (inject_Z 1000) at 2. rewrite <- (round_integer 1000).
    apply round_monotone. change (inject_Z 1000) with 1000. lra. }
  revert Hlo Hhi. generalize (JSMath.round (x * 1000)). intros r Hlo Hhi.
  split; qlra.
Qed.

(** What the code does guarantee: for features of non-negative sum and a
    health score in [0,100] the stress level is in [0,1], on every path. *)
Lemma stress_in_unit_range (rt : Runtime) (audioFeatures : list Q)
    (plantHealthScore : Q) :
  0 <= sum_reduce audioFeatures ->
  0 <= plantHealthScore -> plantHealthScore <= 100 ->
  0 <= stressLevel (analyzeAcousticPattern rt audioFeatures plantHealthScore)
  /\ stressLevel (analyzeAcousticPattern rt audioFeatures plantHealthScore) <= 1.
Proof.
  intros Hsum Hh0 Hh100.
  unfold analyzeAcousticPattern, analyzeAcousticPattern_try.
  destruct audioFeatures as [| x rest] eqn:Hfeatures.
  { cbn. lra. }
  rewrite <- Hfeatures in *.
  assert (Hlocals :
    0 <= fst (analyzeAcousticPattern_locals rt audioFeatures plantHealthScore)
    /\ fst (analyzeAcousticPattern_locals rt audioFeatures plantHealthScore) <= 1).
  { unfold analyzeAcousticPattern_locals.
    assert (Hfallback : forall cv, 0 <= cv ->
      0 <= JSMath.min 1 cv * 0.7 + (1 - plantHealthScore / 100) * 0.3
      /\ JSMath.min 1 cv * 0.7 + (1 - plantHealthScore / 100) * 0.3 <= 1).
    { intros cv Hcv. split; minmax_lra. }
    assert (Hcv : 0 <= JSMath.sqrt
              (fold_left
                 (fun sum val =>
                    sum + (val - sum_reduce audioFeatures / length_of audioFeatures) ^ 2)
                 audioFeatures 0 / length_of audioFeatures)
              / (sum_reduce audioFeatures / length_of audioFeatures + 0.001)).
    { apply quotient_nonneg; [apply sqrt_nonneg |].
      assert (Hmean : 0 <= sum_reduce audioFeatures / length_of audioFeatures).
      { apply quotient_nonneg; [exact Hsum |].
        unfold length_of. rewrite Hfeatures. cbn [length].
        change 0 with (inject_Z 0). rewrite <- Zlt_Qlt. lia. }
      lra. }
    destruct (acousticModel rt) as [model |]; [destruct (window_tf rt) |].
    - destruct (model audioFeatures) as [| v0 v1 flag]; cbn [fst].
      + lra.
      + split; minmax_lra.
    - cbn [fst]. apply Hfallback, Hcv.
    - cbn [fst]. apply Hfallback, Hcv. }
  destruct (analyzeAcousticPattern_locals rt audioFeatures plantHealthScore)
    as [stress conf].
  cbn [fst] in Hlocals. cbn [stressLevel].
  apply unit_range_rounded; tauto.
Qed.

End TfModelsFacts.

(** ** The ingestion endpoint *)

Module IngestFacts.

Import Ingest.

(** The status of [POST] on a parsed body other than [null]. *)
Lemma POST_status (body : Json) (date_now : Z)
    (sensorReadings : list (Json * list Reading)) :
  body <> JNull ->
  status (fst (POST (Parsed body) date_now sensorReadings)) =
    if negb (truthy (property "plantId" body))
       || is_undefined (property "temperature" body)
       || is_undefined (property "humidity" body)
    then 400%Z else 201%Z.
Proof.
  intros Hbody. unfold POST, POST_try.
  destruct body; try congruence;
    match goal with
    | |- context [if ?c then _ else _] => destruct c; reflexivity
    end.
Qed.

(** A body is rejected with 400 exactly when [plantId] is falsy (absent,
    [null], [0], [false] or the empty string) or [temperature] or [humidity]
    is absent. *)
Lemma POST_rejects_iff (body : Json) (date_now : Z)
    (sensorReadings : list (Json * list Reading)) :
  body <> JNull ->
  status (fst (POST (Parsed body) date_now sensorReadings)) = 400%Z
  <-> truthy (property "plantId" body) = false
      \/ property "temperature" body = None
      \/ property "humidity" body = None.
Proof.
  intros Hbody. rewrite (POST_status body date_now sensorReadings Hbody).
  destruct (truthy (property "plantId" body));
    destruct (property "temperature" body);
    destruct (property "humidity" body); cbn; split;
    first [ discriminate | reflexivity | tauto
          | intros [H | [H | H]]; discriminate | eauto ].
Qed.

(** An accepted body is answered with 201, [success: true] and the reading
    stamped with the ISO string of the current instant. *)
Lemma POST_accepts (body : Json) (date_now : Z)
    (sensorReadings : list (Json * list Reading)) :
  body <> JNull ->
  truthy (property "plantId" body) = true ->
  property "temperature" body <> None ->
  property "humidity" body <> None ->
  exists reading,
    fst (POST (Parsed body) date_now sensorReadings)
      = {| payload := IngestedBody true "Sensor data ingested successfully" reading;
           status := 201 |}
    /\ timestamp reading = toISOString date_now
    /\ plantId reading = or_null (property "plantId" body)
    /\ temperature reading = or_null (property "temperature" body)
    /\ humidity reading = or_null (property "humidity" body).
Proof.
  intros Hbody Hid Ht Hh. unfold POST, POST_try.
  destruct body; try congruence; rewrite Hid;
    destruct (property "temperature" _) eqn:Et; try congruence;
    destruct (property "humidity" _) eqn:Eh; try congruence;
    cbn [negb orb is_undefined fst];
    eexists; (split; [reflexivity |]); cbn; tauto.
Qed.

(** C8, as stated, fails: the body
    [{ plantId: 0, temperature: 20, humidity: 50 }] carries the three
    required fields, yet [POST] answers 400 and stores nothing, because the
    guard tests [!plantId]; with [plantId] 1 the same body is accepted. *)
Theorem C8_plant_zero_rejected :
  let body := Samples.ingest_body (JNumber 0) in
  property "plantId" body = Some (JNumber 0)
  /\ property "temperature" body = Some (JNumber 20)
  /\ property "humidity" body = Some (JNumber 50)
  /\ POST (Parsed body) 1700000000000 []
     = ({| payload :=
             ErrorBody "Missing required fields: plantId, temperature, humidity";
           status := 400 |}, [])
  /\ status (fst (POST (Parsed (Samples.ingest_body (JNumber 1)))
                    1700000000000 [])) = 201%Z.
Proof. cbv zeta. repeat split; vm_compute; reflexivity. Qed.

(** A body that is not JSON, or the JSON [null], is answered with 500. *)
Lemma POST_unreadable_body (date_now : Z)
    (sensorReadings : list (Json * list Reading)) :
  status (fst (POST NotJson date_now sensorReadings)) = 500%Z
  /\ status (fst (POST (Parsed JNull) date_now sensorReadings)) = 500%Z.
Proof. split; reflexivity. Qed.

Lemma map_set_has (key : Json) (v : list Reading) (m : list (Json * list Reading)) :
  exists k, In (k, v) (map_set key v m).
Proof.
  induction m as [| [k0 v0] rest IH]; cbn [map_set].
  - exists key. left. reflexivity.
  - destruct (same_key k0 key).
    + exists k0. left. reflexivity.
    + destruct IH as [k Hk]. exists k. right. exact Hk.
Qed.

Lemma shifted_ends_with (old : list Reading) (reading : Reading) :
  exists earlier,
    (if (1000 <? Z.of_nat (length (old ++ [reading])))%Z
     then tail (old ++ [reading]) else old ++ [reading])
    = earlier ++ [reading].
Proof.
  destruct (Z.ltb_spec 1000 (Z.of_nat (length (old ++ [reading])))) as [Hlt | Hle].
  - destruct old as [| r0 old']; [cbn in Hlt; lia |].
    exists old'. reflexivity.
  - exists old. reflexivity.
Qed.

Lemma POST_accepts_and_stores (body : Json) (date_now : Z)
    (sensorReadings : list (Json * list Reading)) :
  body <> JNull ->
  truthy (property "plantId" body) = true ->
  property "temperature" body <> None ->
  property "humidity" body <> None ->
  exists reading,
    fst (POST (Parsed body) date_now sensorReadings)
      = {| payload := IngestedBody true "Sensor data ingested successfully" reading;
           status := 201 |}
    /\ timestamp reading = toISOString date_now
    /\ exists key earlier,
         In (key, earlier ++ [reading])
            (snd (POST (Parsed body) date_now sensorReadings)).
Proof.
  intros Hbody Hid Ht Hh. unfold POST, POST_try.
  destruct body; try congruence; rewrite Hid;
    destruct (property "temperature" _) eqn:Et; try congruence;
    destruct (property "humidity" _) eqn:Eh; try congruence;
    cbn [negb orb is_undefined fst snd];
    eexists; (split; [reflexivity |]); (split; [reflexivity |]);
    match goal with
    | |- context [map_set ?key (if ?c then tail (?old ++ [?r]) else _) _] =>
        destruct (shifted_ends_with old r) as [earlier Hearlier];
        rewrite Hearlier;
        destruct (map_set_has key (earlier ++ [r]) sensorReadings) as [k Hk];
        exists k, earlier; exact Hk
    end.
Qed.

(** C8, amended. A body that is not JSON, or is [null], is answered with
    500.  For every other body, [POST] answers 400 if and only if [plantId] is
    missing or falsy ([null], 0, [false], the empty string) or [temperature]
    or [humidity] is missing (these two are accepted whatever their values);
    otherwise it answers 201 with [success: true] and the reading, which is
    stamped with the ISO string of the current instant and is the newest of a
    stored history. *)
Theorem C8_ingest_status (body : Json) (date_now : Z)
    (sensorReadings : list (Json * list Reading)) :
  status (fst (POST NotJson date_now sensorReadings)) = 500%Z
  /\ status (fst (POST (Parsed JNull) date_now sensorReadings)) = 500%Z
  /\ (body <> JNull ->
      (status (fst (POST (Parsed body) date_now sensorReadings)) = 400%Z
       <-> truthy (property "plantId" body) = false
           \/ property "temperature" body = None
           \/ property "humidity" body = None)
      /\ (status (fst (POST (Parsed body) date_now sensorReadings)) <> 400%Z ->
          exists reading,
            fst (POST (Parsed body) date_now sensorReadings)
              = {| payload :=
                     IngestedBody true "Sensor data ingested successfully" reading;
                   status := 201 |}
            /\ timestamp reading = toISOString date_now
            /\ exists key earlier,
                 In (key, earlier ++ [reading])
                    (snd (POST (Parsed body) date_now sensorReadings)))).
Proof.
  split; [reflexivity |]. split; [reflexivity |].
  intros Hbody.
  pose proof (POST_rejects_iff body date_now sensorReadings Hbody) as Hiff.
  split; [exact Hiff |].
  intros Hstatus.
  apply POST_accepts_and_stores; [exact Hbody | | |].
  - destruct (truthy (property "plantId" body)); [reflexivity |].
    exfalso. apply Hstatus, Hiff. left. reflexivity.
  - intros Hnone. apply Hstatus, Hiff. right. left. exact Hnone.
  - intros Hnone. apply Hstatus, Hiff. right. right. exact Hnone.
Qed.

Lemma C8_ingest_status_witness :
  (status (fst (POST (Parsed (Samples.ingest_body (JNumber 1))) 1700000000000 []))
     = 400%Z
   <-> truthy (property "plantId" (Samples.ingest_body (JNumber 1))) = false
       \/ property "temperature" (Samples.ingest_body (JNumber 1)) = None
       \/ property "humidity" (Samples.ingest_body (JNumber 1)) = None)
  /\ exists reading,
       fst (POST (Parsed (Samples.ingest_body (JNumber 1))) 1700000000000 [])
         = {| payload :=
                IngestedBody true "Sensor data ingested successfully" reading;
              status := 201 |}
       /\ timestamp reading = toISOString 1700000000000
       /\ exists key earlier,
            In (key, earlier ++ [reading])
               (snd (POST (Parsed (Samples.ingest_body (JNumber 1)))
                       1700000000000 [])).
Proof.
  destruct (C8_ingest_status (Samples.ingest_body (JNumber 1)) 1700000000000 [])
    as (_ & _ & Hbody).
  destruct (Hbody ltac:(discriminate)) as [Hiff Haccept].
  split; [exact Hiff |]. apply Haccept. vm_compute. discriminate.
Defined.

End IngestFacts.

(** ** More on the simulator *)

Module ScoringFacts.

Import PlantState Simulator Scoring JSMathFacts SimulatorFacts.

Lemma fresh_state_well_kept (d : InitDraws) (id : Z) (optimalTemp : Q) :
  init_draws_ok d -> well_kept id (fresh_state d id optimalTemp).
Proof.
  intros [_ [? ?] [? ?] [? ?] _ [? ?]].
  constructor; cbn [fresh_state plantId humidity soilMoisture lightIntensity
    stressLevel]; try reflexivity; split; lra.
Qed.

Lemma advance_well_kept (d : StepDraws) (id : Z) (s : PlantState.t) :
  plantId s = id -> (lastWatered s <= now d)%Z -> well_kept id (advance d s).
Proof.
  intros Hid Hpast.
  destruct (advance_in_hard_ranges d s Hpast) as [_ Hh Hm Hl Hs].
  constructor; assumption.
Qed.

Lemma watered_well_kept (id date_now : Z) (s : PlantState.t) :
  well_kept id s ->
  well_kept id
    {| plantId := plantId s;
       temperature := temperature s;
       humidity := humidity s;
       soilMoisture := JSMath.min 90 (soilMoisture s + 40);
       lightIntensity := lightIntensity s;
       lastWatered := date_now;
       stressLevel := stressLevel s |}.
Proof.
  intros [Hid Hh [Hm0 Hm1] Hl Hs].
  constructor; cbn [plantId humidity soilMoisture lightIntensity stressLevel];
    try assumption.
  split; minmax_lra.
Qed.

Lemma step_well_kept (w w' : World) (c : Call) :
  step w c w' ->
  watered_in_past w ->
  (forall id s, plantStates w !! id = Some s -> well_kept id s) ->
  forall id s, plantStates w' !! id = Some s -> well_kept id s.
Proof.
  intros Hstep Hpast Hinv.
  destruct Hstep as [id optimalTemp d Hd Hclock
                    | id d reading states' Hd Hclock Hgen
                    | id date_now Hclock
                    | id ]; intros j s; cbn [plantStates].
  - unfold initializeSensorState. rewrite lookup_insert. case_decide as Hj.
    + intros [= <-]. subst j. apply fresh_state_well_kept. exact Hd.
    + apply Hinv.
  - rewrite generateSensorReading_advance in Hgen. injection Hgen as _ <-.
    rewrite lookup_insert. case_decide as Hj; [| apply Hinv].
    intros [= <-]. subst j. apply advance_well_kept.
    + unfold working_state.
      destruct (plantStates w !! id) as [s0 |] eqn:Hs0; [| reflexivity].
      apply (Hinv id s0 Hs0).
    + apply working_state_watered_in_past; assumption.
  - unfold waterPlant.
    destruct (plantStates w !! id) as [s0 |] eqn:Hs0; [| apply Hinv].
    rewrite lookup_insert. case_decide as Hj; [| apply Hinv].
    intros [= <-]. subst j. apply watered_well_kept. apply (Hinv id s0 Hs0).
  - apply Hinv.
Qed.

Lemma reachable_well_kept (w : World) :
  reachable w ->
  forall id s, plantStates w !! id = Some s -> well_kept id s.
Proof.
  induction 1 as [t0 | w c w' Hreach IH Hstep].
  - intros id s. cbn [plantStates]. rewrite lookup_empty. discriminate.
  - eapply step_well_kept; [exact Hstep | | exact IH].
    apply reachable_watered_in_past. exact Hreach.
Qed.

(** X1. In every state a run can reach, each stored plant state carries
    the id it is stored under and has humidity in [20,95], soil moisture in
    [10,100], light in [0,1000] and stress level in [0,1], also right after
    [initializeSensorState] and after [waterPlant]. *)
Theorem X1_stored_states_well_kept (w : World) (id : Z) (s : PlantState.t) :
  reachable w ->
  getPlantState id (plantStates w) = Some s ->
  well_kept id s.
Proof. intros Hreach Hs. exact (reachable_well_kept w Hreach id s Hs). Qed.

Lemma X1_stored_states_well_kept_witness :
  exists s, getPlantState 1 (plantStates Samples.world_read) = Some s
    /\ well_kept 1 s.
Proof.
  eexists. split.
  - unfold getPlantState, Samples.world_read, Samples.states_read.
    cbn [plantStates]. apply lookup_insert_eq.
  - apply (X1_stored_states_well_kept Samples.world_read 1).
    + apply reachable_world_read.
    + unfold getPlantState, Samples.world_read, Samples.states_read.
      cbn [plantStates]. apply lookup_insert_eq.
Defined.

(** The temperature is not part of that invariant: [initializeSensorState]
    stores whatever baseline it is given, until the first reading clamps it. *)
Lemma initial_temperature_unclamped :
  exists s,
    getPlantState 1
      (initializeSensorState (Samples.init_draws (1 # 2) 0) 1 1000 ∅) = Some s
    /\ temperature s == 1000.
Proof. eexists. split; [apply lookup_insert_eq |]. vm_compute. reflexivity. Qed.

(** X2. A call changes the stored state of no plant other than the one
    it names. *)
Theorem X2_other_plants_untouched (w w' : World) (c : Call) (j : Z) :
  step w c w' ->
  j <> target c ->
  getPlantState j (plantStates w') = getPlantState j (plantStates w).
Proof.
  unfold getPlantState. intros Hstep Hj.
  destruct Hstep as [id optimalTemp d Hd Hclock
                    | id d reading states' Hd Hclock Hgen
                    | id date_now Hclock
                    | id ]; cbn [plantStates target] in *.
  - unfold initializeSensorState. apply lookup_insert_ne. congruence.
  - rewrite generateSensorReading_advance in Hgen. injection Hgen as _ <-.
    apply lookup_insert_ne. congruence.
  - unfold waterPlant. destruct (plantStates w !! id); [| reflexivity].
    apply lookup_insert_ne. congruence.
  - reflexivity.
Qed.

Lemma X2_other_plants_untouched_witness :
  getPlantState 2
    (plantStates
       {| clock := 1700000003000;
          plantStates := waterPlant 1700000003000 1 (plantStates Samples.world_read) |})
  = getPlantState 2 (plantStates Samples.world_read).
Proof.
  apply (X2_other_plants_untouched Samples.world_read _
           (CallWater 1 1700000003000) 2).
  - apply step_water. cbn. lia.
  - cbn. lia.
Defined.

(** Rounding to a grid keeps a value between two points of the grid. *)
Lemma round_between (a b : Z) (x : Q) :
  inject_Z a <= x -> x <= inject_Z b ->
  inject_Z a <= JSMath.round x /\ JSMath.round x <= inject_Z b.
Proof.
  intros Ha Hb. split.
  - rewrite <- (round_integer a). apply round_monotone. exact Ha.
  - rewrite <- (round_integer b). apply round_monotone. exact Hb.
Qed.

Lemma round1_between (a b : Z) (x : Q) :
  inject_Z a <= x -> x <= inject_Z b ->
  inject_Z a <= round1 x /\ round1 x <= inject_Z b.
Proof.
  intros Ha Hb. unfold round1.
  destruct (round_between (a * 10) (b * 10) (x * 10)) as [Hlo Hhi].
  - rewrite inject_Z_mult. change (inject_Z 10) with 10. lra.
  - rewrite inject_Z_mult. change (inject_Z 10) with 10. lra.
  - rewrite inject_Z_mult in Hlo, Hhi. change (inject_Z 10) with 10 in Hlo, Hhi.
    revert Hlo Hhi. generalize (JSMath.round (x * 10)). intros r Hlo Hhi.
    split; qlra.
Qed.

Lemma display_in_hard_ranges (d : StepDraws) (id : Z) (s : PlantState.t) :
  in_hard_ranges s -> reading_in_hard_ranges (display d id s).
Proof.
  intros [[? ?] [? ?] [? ?] [? ?] _].
  constructor; cbn [display SensorReading.temperature SensorReading.humidity
    SensorReading.soilMoisture SensorReading.lightIntensity].
  - apply (round1_between 15 35); assumption.
  - apply (round1_between 20 95); assumption.
  - apply (round1_between 10 100); assumption.
  - apply (round_between 0 1000); assumption.
Qed.

(** X3. Along every run, the reading returned by [generateSensorReading]
    is itself within the hard ranges: the display rounding does not push a
    value over a bound, and the reading carries the id it was asked for. *)
Theorem X3_returned_reading_within_hard_ranges (w : World) (id : Z) (d : StepDraws) :
  reachable w ->
  step_draws_ok d ->
  (clock w <= init_now (first d))%Z ->
  exists reading states',
    generateSensorReading d id (plantStates w) = Some (reading, states')
    /\ SensorReading.plantId reading = id
    /\ reading_in_hard_ranges reading.
Proof.
  intros Hreach Hd Hclock. rewrite generateSensorReading_advance.
  eexists _, _. split; [reflexivity |]. split; [reflexivity |].
  apply display_in_hard_ranges, advance_in_hard_ranges.
  apply working_state_watered_in_past; auto.
  apply reachable_watered_in_past. exact Hreach.
Qed.

Lemma X3_returned_reading_within_hard_ranges_witness :
  exists reading states',
    generateSensorReading (Samples.step_draws (1 # 4) (9 # 10) 1700000002000) 7
      (plantStates Samples.start) = Some (reading, states')
    /\ SensorReading.plantId reading = 7%Z
    /\ reading_in_hard_ranges reading.
Proof.
  apply (X3_returned_reading_within_hard_ranges Samples.start 7
           (Samples.step_draws (1 # 4) (9 # 10) 1700000002000)).
  - apply reachable_start.
  - apply step_draws_ok_sample; unfold unit_draw; lra.
  - cbn. lia.
Defined.

(** X4. One reading moves a stored state that is within the hard ranges by
    a bounded step: the temperature by at most 0.25, the humidity by at
    most 1, the light by at most 25, and the soil moisture upwards by less
    than 1.5; it leaves the time of the last watering as it was. *)
Theorem X4_reading_moves_by_bounded_step (d : StepDraws) (id : Z)
    (states : gmap Z PlantState.t) (s : PlantState.t) :
  getPlantState id states = Some s ->
  in_hard_ranges s ->
  step_draws_ok d ->
  (lastWatered s <= now d)%Z ->
  exists reading states' s',
    generateSensorReading d id states = Some (reading, states')
    /\ getPlantState id states' = Some s'
    /\ temperature s - 0.25 <= temperature s'
    /\ temperature s' <= temperature s + 0.25
    /\ humidity s - 1 <= humidity s' /\ humidity s' <= humidity s + 1
    /\ lightIntensity s - 25 <= lightIntensity s'
    /\ lightIntensity s' <= lightIntensity s + 25
    /\ soilMoisture s' < soilMoisture s + 1.5
    /\ lastWatered s' = lastWatered s.
Proof.
  unfold getPlantState.
  intros Hs [[? ?] [? ?] [? ?] [? ?] _] Hd Hpast.
  pose proof (hours_nonneg _ _ Hpast) as Hdecay.
  destruct Hd as [_ [? ?] [? ?] [? ?] [? ?] _ _ _].
  rewrite generateSensorReading_advance.
  eexists _, _, _. split; [reflexivity |].
  rewrite lookup_insert_eq. split; [reflexivity |].
  unfold working_state. rewrite Hs.
  unfold advance, clamp.
  cbn [temperature humidity soilMoisture lightIntensity lastWatered].
  revert Hdecay.
  generalize (inject_Z (now d - lastWatered s) / (1000 * 60 * 60) * 0.15).
  intros decay Hdecay.
  repeat split; try reflexivity; minmax_lra.
Qed.

Lemma X4_reading_moves_by_bounded_step_witness :
  exists reading states' s',
    generateSensorReading (Samples.step_draws (1 # 4) (9 # 10) 1700000004000) 1
      Samples.states_read = Some (reading, states')
    /\ getPlantState 1 states' = Some s'
    /\ temperature (advance (Samples.step_draws (1 # 2) (9 # 10) 1700000002000)
                      (working_state
                         (Samples.step_draws (1 # 2) (9 # 10) 1700000002000) 1
                         Samples.states_watered)) - 0.25
       <= temperature s'.
Proof.
  destruct (X4_reading_moves_by_bounded_step
              (Samples.step_draws (1 # 4) (9 # 10) 1700000004000) 1
              Samples.states_read
              (advance (Samples.step_draws (1 # 2) (9 # 10) 1700000002000)
                 (working_state
                    (Samples.step_draws (1 # 2) (9 # 10) 1700000002000) 1
                    Samples.states_watered)))
    as (reading & states' & s' & Hgen & Hget & Ht & _).
  - apply lookup_insert_eq.
  - apply advance_in_hard_ranges. vm_compute. discriminate.
  - apply step_draws_ok_sample; unfold unit_draw; lra.
  - vm_compute. discriminate.
  - exists reading, states', s'. auto.
Defined.

(** X5. Watering saturates: on any state a run can reach, two calls of
    [waterPlant] for a plant leave its soil moisture at exactly 90 and its
    last watering at the instant of the second call. *)
Theorem X5_watering_twice_saturates (w : World) (id t1 t2 : Z) (s : PlantState.t) :
  reachable w ->
  getPlantState id (plantStates w) = Some s ->
  exists s2,
    getPlantState id (waterPlant t2 id (waterPlant t1 id (plantStates w))) = Some s2
    /\ soilMoisture s2 == 90
    /\ lastWatered s2 = t2.
Proof.
  intros Hreach Hs.
  unfold getPlantState in *.
  pose proof (reachable_well_kept w Hreach id s Hs) as [_ _ [Hm0 Hm1] _ _].
  destruct (waterPlant_lookup t1 id _ s Hs) as (s1 & Hs1 & Hm1' & _).
  destruct (waterPlant_lookup t2 id _ s1 Hs1) as (s2 & Hs2 & Hm2 & Hw2 & _).
  exists s2. split; [exact Hs2 |]. split; [| exact Hw2].
  rewrite Hm2, Hm1'. minmax_lra.
Qed.

Lemma X5_watering_twice_saturates_witness :
  exists s2,
    getPlantState 1
      (waterPlant 1700000004000 1
         (waterPlant 1700000003000 1 (plantStates Samples.world_read))) = Some s2
    /\ soilMoisture s2 == 90
    /\ lastWatered s2 = 1700000004000%Z.
Proof.
  eapply (X5_watering_twice_saturates Samples.world_read 1).
  - apply reachable_world_read.
  - apply lookup_insert_eq.
Defined.

(** X6. Evaporation outweighs the random walk once ten hours have passed
    since the last watering: a reading then never raises the stored soil
    moisture of a plant whose moisture is at least the floor 10. *)
Theorem X6_no_moisture_gain_ten_hours_after_watering (d : StepDraws) (id : Z)
    (states : gmap Z PlantState.t) (s : PlantState.t) :
  getPlantState id states = Some s ->
  10 <= soilMoisture s ->
  step_draws_ok d ->
  (lastWatered s + 10 * 3600000 <= now d)%Z ->
  exists reading states' s',
    generateSensorReading d id states = Some (reading, states')
    /\ getPlantState id states' = Some s'
    /\ soilMoisture s' <= soilMoisture s.
Proof.
  unfold getPlantState. intros Hs Hm Hd Hlate.
  destruct Hd as [_ _ _ [? ?] _ _ _ _].
  rewrite generateSensorReading_advance.
  eexists _, _, _. split; [reflexivity |].
  rewrite lookup_insert_eq. split; [reflexivity |].
  unfold working_state. rewrite Hs. unfold advance, clamp.
  cbn [soilMoisture].
  assert (Hdecay : 3 # 2 <= inject_Z (now d - lastWatered s) / (1000 * 60 * 60) * 0.15).
  { assert (H36 : inject_Z (10 * 3600000) <= inject_Z (now d - lastWatered s)).
    { rewrite <- Zle_Qle. lia. }
    change (inject_Z (10 * 3600000)) with 36000000 in H36.
    revert H36. generalize (inject_Z (now d - lastWatered s)). intros q Hq. qlra. }
  revert Hdecay.
  generalize (inject_Z (now d - lastWatered s) / (1000 * 60 * 60) * 0.15).
  intros decay Hdecay. minmax_lra.
Qed.

Lemma X6_no_moisture_gain_ten_hours_after_watering_witness :
  exists reading states' s',
    generateSensorReading (Samples.step_draws (1 # 2) (9 # 10) 1700000000000) 1
      Samples.states_initialized = Some (reading, states')
    /\ getPlantState 1 states' = Some s'
    /\ soilMoisture s'
       <= soilMoisture (fresh_state (Samples.init_draws (3 # 4) 1700000000000) 1 22).
Proof.
  apply (X6_no_moisture_gain_ten_hours_after_watering
           (Samples.step_draws (1 # 2) (9 # 10) 1700000000000) 1
           Samples.states_initialized
           (fresh_state (Samples.init_draws (3 # 4) 1700000000000) 1 22)).
  - apply lookup_insert_eq.
  - vm_compute. discriminate.
  - apply step_draws_ok_sample; unfold unit_draw; lra.
  - vm_compute. discriminate.
Defined.

Lemma readings_from_spec (draws : nat -> StepDraws) (plantIds : list Z) :
  forall (k : nat) (states : gmap Z PlantState.t),
  exists readings states',
    readings_from draws k plantIds states = Some (readings, states')
    /\ map SensorReading.plantId readings = plantIds
    /\ (forall id, In id plantIds -> is_Some (states' !! id))
    /\ (forall j, is_Some (states !! j) -> is_Some (states' !! j))
    /\ (forall j, ~ In j plantIds -> states' !! j = states !! j).
Proof.
  induction plantIds as [| id rest IH]; intros k states.
  - exists [], states. cbn. repeat split; auto. intros id [].
  - cbn [readings_from]. rewrite generateSensorReading_advance.
    set (s1 := advance (draws k) (working_state (draws k) id states)).
    destruct (IH (S k) (<[id:=s1]> states))
      as (readings & states' & Hrun & Hids & Hlisted & Hkept & Hother).
    rewrite Hrun. eexists _, _. split; [reflexivity |].
    split; [cbn; f_equal; exact Hids |].
    assert (Hkept' : forall j, is_Some (states !! j) -> is_Some (states' !! j)).
    { intros j Hj. apply Hkept. rewrite lookup_insert.
      case_decide; [eauto | exact Hj]. }
    split; [| split; [exact Hkept' |]].
    + intros j [<- | Hj]; [| apply Hlisted, Hj].
      apply Hkept. rewrite lookup_insert_eq. eauto.
    + intros j Hj. rewrite Hother by (intros Hin; apply Hj; right; exact Hin).
      apply lookup_insert_ne. intros ->. apply Hj. left. reflexivity.
Qed.

(** X7. [getAllPlantReadings] returns one reading per requested id, in the
    order of the request and carrying that id; afterwards every requested
    plant has a stored state, plants that had one still have it, and plants
    not requested are unchanged. *)
Theorem X7_getAllPlantReadings_one_reading_per_id (draws : nat -> StepDraws)
    (plantIds : list Z) (states : gmap Z PlantState.t) :
  exists readings states',
    getAllPlantReadings draws plantIds states = Some (readings, states')
    /\ map SensorReading.plantId readings = plantIds
    /\ (forall id, In id plantIds -> is_Some (getPlantState id states'))
    /\ (forall j, is_Some (getPlantState j states) ->
                  is_Some (getPlantState j states'))
    /\ (forall j, ~ In j plantIds ->
                  getPlantState j states' = getPlantState j states).
Proof. apply readings_from_spec. Qed.

Lemma count_positive (x : Q) (rest : list Q) : 0 < count (x :: rest).
Proof.
  unfold count. change 0 with (inject_Z 0). rewrite <- Zlt_Qlt. cbn [length]. lia.
Qed.

Lemma fit_at_most_one (v ideal tolerance : Q) :
  0 < tolerance -> 1 - JSMath.abs (v - ideal) / tolerance <= 1.
Proof.
  intros Htol.
  assert (H : 0 <= JSMath.abs (v - ideal) / tolerance).
  { apply TfModelsFacts.quotient_nonneg; [apply Qabs_nonneg | exact Htol]. }
  lra.
Qed.

Lemma rounded_fit_at_most_100 (reading : SensorReading.t) :
  rounded_fit reading <= 100.
Proof.
  unfold rounded_fit.
  pose proof (fit_at_most_one (SensorReading.temperature reading) 22 15) as Ht.
  pose proof (fit_at_most_one (SensorReading.humidity reading) 60 30) as Hh.
  pose proof (fit_at_most_one (SensorReading.soilMoisture reading) 60 50) as Hm.
  revert Ht Hh Hm.
  generalize (1 - JSMath.abs (SensorReading.temperature reading - 22) / 15),
    (1 - JSMath.abs (SensorReading.humidity reading - 60) / 30),
    (1 - JSMath.abs (SensorReading.soilMoisture reading - 60) / 50).
  intros ft fh fm Ht Hh Hm.
  assert (H15 : 0 < 15) by lra. assert (H30 : 0 < 30) by lra.
  assert (H50 : 0 < 50) by lra.
  specialize (Ht H15). specialize (Hh H30). specialize (Hm H50).
  change 100 with (inject_Z 100) at 3. rewrite <- (round_integer 100).
  apply round_monotone. change (inject_Z 100) with 100.
  destruct (Qlt_le_dec 100 (SensorReading.lightIntensity reading)); qlra.
Qed.

(** X8. [calculateHealthScore] returns an integer between 10 and 100 for
    every reading.  The rounded average fit never exceeds 100, so only the
    floor of 10 ever changes it. *)
Theorem X8_health_score_integer_in_range (reading : SensorReading.t) :
  10 <= calculateHealthScore reading
  /\ calculateHealthScore reading <= 100
  /\ (exists k : Z, calculateHealthScore reading == inject_Z k)
  /\ calculateHealthScore reading == JSMath.max 10 (rounded_fit reading).
Proof.
  unfold calculateHealthScore.
  pose proof (rounded_fit_at_most_100 reading) as Hfit.
  assert (Hint : exists k : Z, rounded_fit reading = inject_Z k).
  { unfold rounded_fit, JSMath.round. eauto. }
  destruct Hint as [k Hk]. revert Hfit. rewrite Hk. intros Hfit.
  split; [minmax_lra |]. split; [minmax_lra |]. split; [| minmax_lra].
  destruct (Qlt_le_dec (inject_Z k) 10).
  - exists 10%Z. change (inject_Z 10) with 10. minmax_lra.
  - exists k. minmax_lra.
Qed.

(** A reading at the ideal point with enough light scores 100, and a dark,
    hot, dry one falls to the floor. *)
Example health_score_extremes :
  calculateHealthScore (SensorReading.mk 1 22 60 60 500 0 []) == 100
  /\ calculateHealthScore (SensorReading.mk 1 35 20 10 0 0 []) == 10.
Proof. split; vm_compute; reflexivity. Qed.

Lemma sum_nonneg (l : list Q) :
  forall acc, 0 <= acc -> Forall (fun f => 0 <= f) l -> 0 <= fold_left Qplus l acc.
Proof.
  induction l as [| x rest IH]; intros acc Hacc Hall; cbn [fold_left].
  - exact Hacc.
  - inversion Hall as [| ? ? Hx Hrest]; subst. apply IH; [lra | exact Hrest].
Qed.

Lemma square_nonneg (x : Q) : 0 <= x ^ 2.
Proof. change (x ^ 2) with (x * x). nra. Qed.

Lemma squares_sum_nonneg (avg : Q) (l : list Q) :
  forall acc, 0 <= acc ->
  0 <= fold_left (fun sum f => sum + (f - avg) ^ 2) l acc.
Proof.
  induction l as [| x rest IH]; intros acc Hacc; cbn [fold_left].
  - exact Hacc.
  - apply IH. pose proof (square_nonneg (x - avg)). lra.
Qed.

Lemma acoustic_stress_range (acousticData : list Q) :
  predictAcousticStress acousticData <= 1
  /\ (Forall (fun f => 0 <= f) acousticData ->
      0 <= predictAcousticStress acousticData).
Proof.
  destruct acousticData as [| x rest].
  { cbn. split; [lra | intros _; lra]. }
  pose proof (count_positive x rest) as Hcount.
  unfold predictAcousticStress.
  set (acousticData := x :: rest) in *. clearbody acousticData.
  set (avg := fold_left Qplus acousticData 0 / count acousticData).
  assert (Hvar : 0 <= fold_left (fun sum f => sum + (f - avg) ^ 2) acousticData 0
                      / count acousticData).
  { apply TfModelsFacts.quotient_nonneg; [| exact Hcount].
    apply squares_sum_nonneg. lra. }
  revert Hvar.
  generalize (fold_left (fun sum f => sum + (f - avg) ^ 2) acousticData 0
              / count acousticData).
  intros var Hvar. split.
  - minmax_lra.
  - intros Hall.
    assert (Havg : 0 <= avg).
    { apply TfModelsFacts.quotient_nonneg; [| exact Hcount].
      apply sum_nonneg; [lra | exact Hall]. }
    revert Havg. generalize avg. intros a Ha. minmax_lra.
Qed.

Lemma generated_pattern_stress_range (acousticData : list Q) :
  Forall (fun f => 100 <= f /\ f <= 2025) acousticData ->
  0 <= predictAcousticStress acousticData
  /\ predictAcousticStress acousticData <= 1.
Proof.
  intros Hall. destruct (acoustic_stress_range acousticData) as [H1 H0].
  split; [| exact H1]. apply H0.
  eapply List.Forall_impl; [| exact Hall]. cbn. intros f [Hf _]. lra.
Qed.

(** X9. [predictAcousticStress] is 0 on an empty pattern, never exceeds 1,
    and is not negative when no frequency of the pattern is negative. *)
Theorem X9_acoustic_stress_bounds (acousticData : list Q) :
  predictAcousticStress [] == 0
  /\ predictAcousticStress acousticData <= 1
  /\ (Forall (fun f => 0 <= f) acousticData ->
      0 <= predictAcousticStress acousticData).
Proof. split; [reflexivity | apply acoustic_stress_range]. Qed.

Lemma X9_acoustic_stress_bounds_witness :
  predictAcousticStress [] == 0
  /\ predictAcousticStress [100; 150; 200; 250] <= 1
  /\ 0 <= predictAcousticStress [100; 150; 200; 250].
Proof.
  destruct (X9_acoustic_stress_bounds [100; 150; 200; 250]) as (H0 & H1 & H2).
  split; [exact H0 |]. split; [exact H1 |].
  apply H2. repeat constructor; lra.
Defined.

Lemma base_frequency_ranges (i : nat) :
  100 <= nth (i mod 4) healthyBase 0 /\ nth (i mod 4) healthyBase 0 <= 250
  /\ 800 <= nth (i mod 4) stressFreqs 0 /\ nth (i mod 4) stressFreqs 0 <= 2000.
Proof.
  assert (Hlt : (i mod 4 < 4)%nat) by (apply Nat.mod_upper_bound; lia).
  destruct (i mod 4)%nat as [| [| [| [| n]]]]; cbn; try lia; repeat split; lra.
Qed.

Lemma acoustic_loop_spec (noise : nat -> Q) (stress : Q) (n : nat) :
  0 <= stress -> stress <= 1 ->
  (forall i, unit_draw (noise i)) ->
  forall i0,
    length (acoustic_loop noise stress i0 n) = n
    /\ Forall (fun f => 100 <= f /\ f <= 2025) (acoustic_loop noise stress i0 n).
Proof.
  intros Hs0 Hs1 Hnoise.
  induction n as [| n IH]; intros i0; cbn [acoustic_loop length].
  - split; [reflexivity | constructor].
  - destruct (IH (S i0)) as [Hlen Hall]. split; [f_equal; exact Hlen |].
    constructor; [| exact Hall].
    destruct (base_frequency_ranges i0) as (Hh0 & Hh1 & Hf0 & Hf1).
    destruct (Hnoise i0) as [Hn0 Hn1].
    revert Hh0 Hh1 Hf0 Hf1 Hn0 Hn1.
    generalize (nth (i0 mod 4) healthyBase 0), (nth (i0 mod 4) stressFreqs 0),
      (noise i0).
    intros h f u Hh0 Hh1 Hf0 Hf1 Hn0 Hn1. split; nra.
Qed.

(** X10. For a stress level in [0,1] and draws in [0,1),
    [generateAcousticPattern] returns 20 frequencies, each between 100 and
    2025. *)
Theorem X10_acoustic_pattern_shape (noise : nat -> Q) (stress : Q) :
  0 <= stress -> stress <= 1 ->
  (forall i, unit_draw (noise i)) ->
  length (generateAcousticPattern noise stress) = 20%nat
  /\ Forall (fun f => 100 <= f /\ f <= 2025) (generateAcousticPattern noise stress).
Proof.
  intros Hs0 Hs1 Hnoise. apply acoustic_loop_spec; assumption.
Qed.

Lemma X10_acoustic_pattern_shape_witness :
  length (generateAcousticPattern (fun _ => 1 # 2) (1 # 2)) = 20%nat
  /\ Forall (fun f => 100 <= f /\ f <= 2025)
       (generateAcousticPattern (fun _ => 1 # 2) (1 # 2)).
Proof.
  apply (X10_acoustic_pattern_shape (fun _ => 1 # 2) (1 # 2)).
  - lra.
  - lra.
  - intros _. unfold unit_draw. lra.
Defined.

(** X11. Along every run, the acoustic pattern attached to a returned
    reading has 20 frequencies, and [predictAcousticStress] maps it to a
    value in [0,1]. *)
Theorem X11_stress_of_generated_pattern (w : World) (id : Z) (d : StepDraws) :
  reachable w ->
  step_draws_ok d ->
  (clock w <= init_now (first d))%Z ->
  exists reading states',
    generateSensorReading d id (plantStates w) = Some (reading, states')
    /\ length (SensorReading.acousticData reading) = 20%nat
    /\ 0 <= predictAcousticStress (SensorReading.acousticData reading)
    /\ predictAcousticStress (SensorReading.acousticData reading) <= 1.
Proof.
  intros Hreach Hd Hclock. rewrite generateSensorReading_advance.
  eexists _, _. split; [reflexivity |].
  cbn [display SensorReading.acousticData].
  assert (Hrange : in_hard_ranges (advance d (working_state d id (plantStates w)))).
  { apply advance_in_hard_ranges, working_state_watered_in_past; auto.
    apply reachable_watered_in_past. exact Hreach. }
  destruct Hrange as [_ _ _ _ [Hs0 Hs1]].
  destruct (acoustic_loop_spec (noise d) _ 20 Hs0 Hs1 (ok_noise d Hd) 0%nat)
    as [Hlen Hall].
  fold (generateAcousticPattern (noise d)
          (stressLevel (advance d (working_state d id (plantStates w)))))
    in Hlen, Hall.
  split; [exact Hlen |].
  destruct (generated_pattern_stress_range _ Hall) as [H0 H1]. split; assumption.
Qed.

Lemma X11_stress_of_generated_pattern_witness :
  exists reading states',
    generateSensorReading (Samples.step_draws (1 # 4) (9 # 10) 1700000002000) 7
      (plantStates Samples.start) = Some (reading, states')
    /\ length (SensorReading.acousticData reading) = 20%nat
    /\ 0 <= predictAcousticStress (SensorReading.acousticData reading)
    /\ predictAcousticStress (SensorReading.acousticData reading) <= 1.
Proof.
  apply (X11_stress_of_generated_pattern Samples.start 7
           (Samples.step_draws (1 # 4) (9 # 10) 1700000002000)).
  - apply reachable_start.
  - apply step_draws_ok_sample; unfold unit_draw; lra.
  - cbn. lia.
Defined.

End ScoringFacts.

(** ** More on the prediction engine *)

Module DisposalFacts.

Import TfModels PredictionResult Disposal JSMathFacts TfModelsFacts ScoringFacts.

(** The heuristic branch is the one taken when the health model is absent
    or [window.tf] is. *)
Lemma locals_on_fallback (rt : Runtime) (input : PlantHealthInput) :
  healthModel rt = None \/ window_tf rt = false ->
  predictPlantHealth_locals rt input =
    (JSMath.round
       (healthScore input * 0.5
        + (100 - JSMath.abs (temperature input - 23) * 5) * 0.25
        + (100 - JSMath.abs (humidity input - 60) * 1.5) * 0.25),
     0.65).
Proof.
  intros [Hnone | Htf]; unfold predictPlantHealth_locals.
  - rewrite Hnone. reflexivity.
  - rewrite Htf. destruct (healthModel rt); reflexivity.
Qed.




(** X13. On the heuristic path the prediction is monotone in the current
    score: at equal temperature and humidity, a higher score never yields a
    lower [predictedHealth]. *)
Theorem X13_fallback_monotone_in_score (rt : Runtime) (score1 score2 t h : Q) :
  healthModel rt = None \/ window_tf rt = false ->
  score1 <= score2 ->
  predictedHealth (predictPlantHealth rt (Samples.plant score1 t h))
  <= predictedHealth (predictPlantHealth rt (Samples.plant score2 t h)).
Proof.
  intros Hpath Hle.
  destruct (predictPlantHealth_fields rt (Samples.plant score1 t h)) as (Hp1 & _).
  destruct (predictPlantHealth_fields rt (Samples.plant score2 t h)) as (Hp2 & _).
  rewrite (locals_on_fallback rt _ Hpath) in Hp1.
  rewrite (locals_on_fallback rt _ Hpath) in Hp2. cbn [fst] in Hp1, Hp2.
  rewrite Hp1, Hp2.
  cbn [Samples.plant healthScore temperature humidity].
  match goal with
  | |- JSMath.max 0 (JSMath.min 100 (JSMath.round ?a))
       <= JSMath.max 0 (JSMath.min 100 (JSMath.round ?b)) =>
      assert (Hround : JSMath.round a <= JSMath.round b)
        by (apply round_monotone; lra);
      revert Hround; generalize (JSMath.round a), (JSMath.round b)
  end.
  intros r1 r2 Hr. minmax_lra.
Qed.

Lemma X13_fallback_monotone_in_score_witness :
  predictedHealth (predictPlantHealth no_model (Samples.plant 40 30 60))
  <= predictedHealth (predictPlantHealth no_model (Samples.plant 80 30 60)).
Proof.
  apply (X13_fallback_monotone_in_score no_model 40 80 30 60).
  - left. reflexivity.
  - lra.
Defined.

(** X14. On the heuristic path the prediction before clamping is at most
    [score/2 + 50.5], so a plant whose score is 91 or more is never reported
    as [improving], whatever the temperature and humidity. *)
Theorem X14_fallback_never_improving_from_91 (rt : Runtime) (input : PlantHealthInput) :
  healthModel rt = None \/ window_tf rt = false ->
  fst (predictPlantHealth_locals rt input) <= healthScore input * 0.5 + 50.5
  /\ (91 <= healthScore input ->
      trend (predictPlantHealth rt input) <> improving).
Proof.
  intros Hpath.
  destruct (predictPlantHealth_fields rt input) as (_ & _ & Ht).
  rewrite Ht. rewrite (locals_on_fallback rt input Hpath). cbn [fst].
  assert (Hraw :
    JSMath.round
      (healthScore input * 0.5
       + (100 - JSMath.abs (temperature input - 23) * 5) * 0.25
       + (100 - JSMath.abs (humidity input - 60) * 1.5) * 0.25)
    <= healthScore input * 0.5 + 50.5).
  { match goal with
    | |- JSMath.round ?a <= _ => pose proof (round_near a) as [_ Hnear]
    end.
    eapply Qle_trans; [exact Hnear |]. minmax_lra. }
  split; [exact Hraw |].
  intros Hscore Himproving. apply determine_trend_improving in Himproving. lra.
Qed.

Lemma X14_fallback_never_improving_from_91_witness :
  trend (predictPlantHealth no_model (Samples.plant 95 23 60)) <> improving.
Proof.
  destruct (X14_fallback_never_improving_from_91 no_model (Samples.plant 95 23 60))
    as [_ Hnever].
  - left. reflexivity.
  - apply Hnever. cbn. lra.
Defined.


Lemma rounded_thousandths (s : Q) (k : Z) :
  (inject_Z k / 1000 < s -> inject_Z k / 1000 <= JSMath.round (s * 1000) / 1000)
  /\ (s <= inject_Z k / 1000 -> JSMath.round (s * 1000) / 1000 <= inject_Z k / 1000).
Proof.
  split; intros Hs.
  - assert (H : inject_Z k <= JSMath.round (s * 1000)).
    { rewrite <- (round_integer k). apply round_monotone. qlra. }
    revert H. generalize (JSMath.round (s * 1000)). intros r Hr. qlra.
  - assert (H : JSMath.round (s * 1000) <= inject_Z k).
    { rewrite <- (round_integer k). apply round_monotone. qlra. }
    revert H. generalize (JSMath.round (s * 1000)). intros r Hr. qlra.
Qed.

(** The classification is decided before the level is rounded, so a level
    just above 0.7 is returned as 0.7 with the label [high_stress]; and the
    empty vector is answered with level 0.5 labelled [healthy]. *)
Example classification_edge_cases :
  AcousticResult.classification
    (analyzeAcousticPattern (Samples.constant_models 0.7004 0.9) [1] 50)
    = AcousticResult.high_stress
  /\ AcousticResult.stressLevel
       (analyzeAcousticPattern (Samples.constant_models 0.7004 0.9) [1] 50) == 0.7
  /\ AcousticResult.classification (analyzeAcousticPattern no_model [] 50)
     = AcousticResult.healthy
  /\ AcousticResult.stressLevel (analyzeAcousticPattern no_model [] 50) == 0.5.
Proof. repeat split; vm_compute; reflexivity. Qed.

(** X16. When [disposeModels] completes, both models are [null]; from
    then on [predictPlantHealth] and [analyzeAcousticPattern] answer as the
    heuristic paths do, and a further [disposeModels] changes nothing and
    cannot throw.  When it throws, a model is still loaded. *)
Theorem X16_dispose_leads_to_fallback (ht at' : bool) (rt rt' : Runtime)
    (outcome : Completion unit) :
  disposeModels ht at' rt = (rt', outcome) ->
  match outcome with
  | Normal _ =>
      healthModel rt' = None /\ acousticModel rt' = None
      /\ (forall input,
            predictPlantHealth rt' input = fallback_prediction input)
      /\ (forall audioFeatures plantHealthScore,
            analyzeAcousticPattern rt' audioFeatures plantHealthScore
            = analyzeAcousticPattern no_model audioFeatures plantHealthScore)
      /\ (forall ht2 at2, disposeModels ht2 at2 rt' = (rt', Normal tt))
  | Thrown => healthModel rt' <> None \/ acousticModel rt' <> None
  end.
Proof.
  unfold disposeModels. destruct rt as [hm am tf].
  cbn [healthModel acousticModel window_tf].
  assert (Hnull : forall tf0,
    let rt0 := {| healthModel := None; acousticModel := None; window_tf := tf0 |} in
    healthModel rt0 = None /\ acousticModel rt0 = None
    /\ (forall input, predictPlantHealth rt0 input = fallback_prediction input)
    /\ (forall audioFeatures plantHealthScore,
          analyzeAcousticPattern rt0 audioFeatures plantHealthScore
          = analyzeAcousticPattern no_model audioFeatures plantHealthScore)
    /\ (forall ht2 at2, disposeModels ht2 at2 rt0 = (rt0, Normal tt))).
  { intros tf0. cbv zeta. repeat split; reflexivity. }
  destruct hm as [hm |], am as [am |], ht, at'; intros [= <- <-];
    first [ apply Hnull | left; discriminate | right; discriminate ].
Qed.

Lemma X16_dispose_leads_to_fallback_witness :
  healthModel no_model = None /\ acousticModel no_model = None
  /\ (forall input,
        predictPlantHealth no_model input = fallback_prediction input)
  /\ (forall audioFeatures plantHealthScore,
        analyzeAcousticPattern no_model audioFeatures plantHealthScore
        = analyzeAcousticPattern no_model audioFeatures plantHealthScore)
  /\ (forall ht2 at2, disposeModels ht2 at2 no_model = (no_model, Normal tt)).
Proof.
  apply (X16_dispose_leads_to_fallback false false
           {| healthModel := Some (fun _ => InferenceThrows);
              acousticModel := Some (fun _ => InferenceThrows);
              window_tf := false |} no_model (Normal tt)).
  reflexivity.
Defined.





End DisposalFacts.

(** ** More on the ingestion endpoint *)

Module QueryFacts.

Import Ingest Query.

(** X18. A request that is not answered with 201 leaves the stored
    readings as they were. *)
Theorem X18_rejected_request_stores_nothing (request : RequestBody) (date_now : Z)
    (sensorReadings : list (Json * list Reading)) :
  status (fst (POST request date_now sensorReadings)) <> 201%Z ->
  snd (POST request date_now sensorReadings) = sensorReadings.
Proof.
  unfold POST, POST_try.
  destruct request as [| body]; [reflexivity |].
  destruct body; try reflexivity;
    match goal with
    | |- context [if ?c then _ else _] => destruct c
    end; cbn [fst snd status]; congruence.
Qed.

Lemma X18_rejected_request_stores_nothing_witness :
  snd (POST (Parsed (Samples.ingest_body (JNumber 0))) 1700000000000 [])
  = [].
Proof.
  apply (X18_rejected_request_stores_nothing
           (Parsed (Samples.ingest_body (JNumber 0))) 1700000000000 []).
  vm_compute. discriminate.
Defined.

Lemma map_get_In (key : Json) (m : list (Json * list Reading))
    (readings : list Reading) :
  map_get key m = Some readings -> exists k, In (k, readings) m.
Proof.
  induction m as [| [k v] rest IH]; cbn [map_get]; [discriminate |].
  destruct (same_key k key).
  - intros [= <-]. exists k. left. reflexivity.
  - intros Hget. destruct (IH Hget) as [k' Hin]. exists k'. right. exact Hin.
Qed.

Lemma map_set_In (key : Json) (v : list Reading) (m : list (Json * list Reading))
    (k : Json) (readings : list Reading) :
  In (k, readings) (map_set key v m) -> readings = v \/ In (k, readings) m.
Proof.
  induction m as [| [k0 v0] rest IH]; cbn [map_set].
  - intros [[= _ <-] | []]. left. reflexivity.
  - destruct (same_key k0 key).
    + intros [[= _ <-] | Hin]; [left; reflexivity | right; right; exact Hin].
    + intros [Heq | Hin]; [right; left; exact Heq |].
      destruct (IH Hin) as [-> | Hin']; [left; reflexivity | right; right; exact Hin'].
Qed.

Lemma length_after_shift (l : list Reading) :
  length (tail l) = (length l - 1)%nat.
Proof. destruct l; cbn [tail length]; lia. Qed.

Lemma POST_histories_bounded (request : RequestBody) (date_now : Z)
    (sensorReadings : list (Json * list Reading)) :
  histories_bounded sensorReadings ->
  histories_bounded (snd (POST request date_now sensorReadings)).
Proof.
  intros Hbound. unfold POST, POST_try.
  destruct request as [| body]; [exact Hbound |].
  destruct body; try exact Hbound;
    match goal with
    | |- context [if ?c then _ else _] => destruct c
    end; cbn [snd]; try exact Hbound;
    intros k readings Hin; apply map_set_In in Hin;
    (destruct Hin as [-> | Hin]; [| exact (Hbound k readings Hin)]);
    match goal with
    | |- context [map_get ?key sensorReadings] =>
        destruct (map_get key sensorReadings) as [old |] eqn:Hget
    end;
    try (apply map_get_In in Hget; destruct Hget as [k' Hold];
         apply Hbound in Hold);
    match goal with
    | |- context [(1000 <? ?n)%Z] => destruct (Z.ltb_spec 1000 n) as [Hlt | Hle]
    end;
    rewrite ?length_after_shift, ?length_app in *; cbn [length] in *; lia.
Qed.

(** X19. The retention bound is an invariant of the endpoint: if no stored
    history is longer than 1000 readings, none is after any sequence of
    [POST] requests, whatever their bodies. *)
Theorem X19_histories_stay_bounded (requests : list (RequestBody * Z))
    (sensorReadings : list (Json * list Reading)) :
  histories_bounded sensorReadings ->
  histories_bounded (post_all requests sensorReadings).
Proof.
  revert sensorReadings.
  induction requests as [| [request date_now] rest IH]; intros store Hbound.
  - exact Hbound.
  - cbn [post_all]. apply IH, POST_histories_bounded, Hbound.
Qed.

Lemma X19_histories_stay_bounded_witness :
  histories_bounded
    (post_all [(Parsed (Samples.ingest_body (JNumber 1)), 1700000000000%Z);
               (Parsed (Samples.ingest_body (JNumber 1)), 1700000001000%Z)] []).
Proof.
  apply (X19_histories_stay_bounded _ []).
  intros key readings [].
Defined.

Lemma map_get_set_same (key : Json) (v : list Reading)
    (m : list (Json * list Reading)) :
  same_key key key = true -> map_get key (map_set key v m) = Some v.
Proof.
  intros Hrefl. induction m as [| [k0 v0] rest IH]; cbn [map_set map_get].
  - rewrite Hrefl. reflexivity.
  - destruct (same_key k0 key) eqn:Hk; cbn [map_get]; rewrite Hk.
    + reflexivity.
    + exact IH.
Qed.

Lemma shift_after_push (old : list Reading) (reading : Reading) :
  (if (1000 <? Z.of_nat (length (old ++ [reading])))%Z
   then tail (old ++ [reading]) else old ++ [reading])
  = pushed old reading.
Proof.
  unfold pushed. rewrite length_app. cbn [length].
  destruct (Z.ltb_spec 1000 (Z.of_nat (length old + 1)));
    destruct (Nat.ltb_spec (length old) 1000); try lia; try reflexivity.
  destruct old as [| r0 old']; [cbn [length] in *; lia | reflexivity].
Qed.

(** The response and the map after an accepted request whose [plantId] is
    a number. *)
Lemma POST_numeric_plant (body : Json) (n : Z) (date_now : Z)
    (sensorReadings : list (Json * list Reading)) :
  property "plantId" body = Some (JNumber (inject_Z n)) ->
  n <> 0%Z ->
  property "temperature" body <> None ->
  property "humidity" body <> None ->
  exists reading,
    fst (POST (Parsed body) date_now sensorReadings)
      = {| payload := IngestedBody true "Sensor data ingested successfully" reading;
           status := 201 |}
    /\ timestamp reading = toISOString date_now
    /\ history_of n (snd (POST (Parsed body) date_now sensorReadings))
       = pushed (history_of n sensorReadings) reading.
Proof.
  intros Hid Hn Ht Hh.
  assert (Hbody : exists fields, body = JObject fields).
  { destruct body; cbn in Hid; try discriminate. eauto. }
  destruct Hbody as [fields ->].
  assert (Htruthy : truthy (Some (JNumber (inject_Z n))) = true).
  { cbn [truthy]. destruct (Qeq_bool (inject_Z n) 0) eqn:Hzero; [| reflexivity].
    apply Qeq_bool_eq in Hzero. exfalso. apply Hn.
    apply inject_Z_injective. exact Hzero. }
  assert (Hrefl : same_key (JNumber (inject_Z n)) (JNumber (inject_Z n)) = true).
  { cbn. apply Qeq_bool_iff. reflexivity. }
  unfold POST, POST_try. rewrite Hid, Htruthy.
  destruct (property "temperature" _) eqn:Et; [| congruence].
  destruct (property "humidity" _) eqn:Eh; [| congruence].
  cbn [negb orb is_undefined fst snd or_null].
  eexists. split; [reflexivity |]. split; [reflexivity |].
  unfold history_of. rewrite shift_after_push.
  rewrite (map_get_set_same _ _ _ Hrefl). reflexivity.
Qed.

(** X20. An accepted request with a numeric [plantId] is answered with
    the stored reading, stamped with the current instant, and that reading
    becomes the newest of the plant's history; the oldest one is dropped
    exactly when the history already held 1000 readings. *)
Theorem X20_accepted_reading_is_newest (body : Json) (n : Z) (date_now : Z)
    (sensorReadings : list (Json * list Reading)) :
  property "plantId" body = Some (JNumber (inject_Z n)) ->
  n <> 0%Z ->
  property "temperature" body <> None ->
  property "humidity" body <> None ->
  exists reading,
    fst (POST (Parsed body) date_now sensorReadings)
      = {| payload := IngestedBody true "Sensor data ingested successfully" reading;
           status := 201 |}
    /\ timestamp reading = toISOString date_now
    /\ history_of n (snd (POST (Parsed body) date_now sensorReadings))
       = (if (length (history_of n sensorReadings) <? 1000)%nat
          then history_of n sensorReadings ++ [reading]
          else tail (history_of n sensorReadings) ++ [reading]).
Proof. apply POST_numeric_plant. Qed.

Lemma X20_accepted_reading_is_newest_witness :
  exists reading,
    fst (POST (Parsed (Samples.ingest_body (JNumber (inject_Z 1))))
           1700000000000 [])
      = {| payload := IngestedBody true "Sensor data ingested successfully" reading;
           status := 201 |}
    /\ timestamp reading = toISOString 1700000000000
    /\ history_of 1
         (snd (POST (Parsed (Samples.ingest_body (JNumber (inject_Z 1))))
                 1700000000000 []))
       = (if (length (history_of 1 []) <? 1000)%nat
          then history_of 1 [] ++ [reading]
          else tail (history_of 1 []) ++ [reading]).
Proof.
  apply (X20_accepted_reading_is_newest
           (Samples.ingest_body (JNumber (inject_Z 1))) 1 1700000000000 []).
  - reflexivity.
  - lia.
  - discriminate.
  - discriminate.
Defined.

Lemma pushed_ends_with (old : list Reading) (reading : Reading) :
  exists older, pushed old reading = older ++ [reading].
Proof. unfold pushed. destruct (length old <? 1000)%nat; eauto. Qed.

(** [slice(-limit)] for a positive limit keeps the last [limit] elements. *)
Lemma slice_last (A : Type) (limit : Z) (l : list A) :
  (1 <= limit)%Z ->
  slice (- limit) l = drop (length l - Z.to_nat limit) l.
Proof.
  intros Hlimit. unfold slice.
  destruct (Z.ltb_spec (- limit) 0); [| lia].
  f_equal. lia.
Qed.

Lemma slice_zero (A : Type) (l : list A) : slice 0 l = l.
Proof.
  unfold slice. cbn [Z.ltb Z.compare]. rewrite Z.min_l by lia. reflexivity.
Qed.

Section Get.

Variable parseInt : string -> option Z.

(** The answer of [GET] for a plant id that is present and not empty. *)
Lemma GET_answer (plantId : string) (limit : option string)
    (sensorReadings : list (Json * list Reading)) :
  plantId <> EmptyString ->
  GET parseInt (Some plantId) limit sensorReadings =
    let recentReadings :=
      slice (match parseInt (match limit with Some l => l | None => "100"%string end)
             with Some n => - n | None => 0 end)%Z
        (match parseInt plantId with
         | Some n => history_of n sensorReadings
         | None => []
         end) in
    {| query_payload :=
         QueryReadings true (parseInt plantId)
           (Z.of_nat (length recentReadings)) recentReadings;
       query_status := 200 |}.
Proof.
  intros Hne. unfold GET, history_of.
  destruct plantId as [| c rest]; [contradiction |]. reflexivity.
Qed.

(** X21. With a [limit] that parses to a number of at least 1, [GET]
    returns the last [limit] readings of the plant's history, oldest first,
    and all of them when there are fewer; [readingCount] is their number and
    never exceeds the limit. *)
Theorem X21_get_returns_most_recent (plantId limit : string) (n l : Z)
    (sensorReadings : list (Json * list Reading)) :
  plantId <> EmptyString ->
  parseInt plantId = Some n ->
  parseInt limit = Some l ->
  (1 <= l)%Z ->
  let history := history_of n sensorReadings in
  let recent := drop (length history - Z.to_nat l) history in
  GET parseInt (Some plantId) (Some limit) sensorReadings
    = {| query_payload :=
           QueryReadings true (Some n) (Z.of_nat (length recent)) recent;
         query_status := 200 |}
  /\ Z.of_nat (length recent) = Z.min l (Z.of_nat (length history)).
Proof.
  intros Hne Hid Hlimit Hl history recent.
  rewrite (GET_answer plantId (Some limit) sensorReadings Hne).
  rewrite Hid, Hlimit. cbv zeta. rewrite (slice_last _ l _ Hl).
  fold history. fold recent. split; [reflexivity |].
  unfold recent. rewrite length_drop. lia.
Qed.

(** X22. A [limit] of 0, or one that does not parse to a number, does not
    limit anything: [GET] then returns the whole history of the plant. *)
Theorem X22_get_limit_zero_returns_all (plantId limit : string) (n : Z)
    (sensorReadings : list (Json * list Reading)) :
  plantId <> EmptyString ->
  parseInt plantId = Some n ->
  parseInt limit = Some 0%Z \/ parseInt limit = None ->
  GET parseInt (Some plantId) (Some limit) sensorReadings
    = {| query_payload :=
           QueryReadings true (Some n)
             (Z.of_nat (length (history_of n sensorReadings)))
             (history_of n sensorReadings);
         query_status := 200 |}.
Proof.
  intros Hne Hid Hlimit.
  rewrite (GET_answer plantId (Some limit) sensorReadings Hne). rewrite Hid.
  destruct Hlimit as [-> | ->]; cbv zeta; cbn [Z.opp];
    rewrite slice_zero; reflexivity.
Qed.

(** X23. A reading posted under a numeric [plantId] is what a following
    [GET] for that id returns last, for every limit of at least 1. *)
Theorem X23_posted_reading_is_returned_last (body : Json) (plantId limit : string)
    (n l : Z) (date_now : Z) (sensorReadings : list (Json * list Reading)) :
  property "plantId" body = Some (JNumber (inject_Z n)) ->
  n <> 0%Z ->
  property "temperature" body <> None ->
  property "humidity" body <> None ->
  plantId <> EmptyString ->
  parseInt plantId = Some n ->
  parseInt limit = Some l ->
  (1 <= l)%Z ->
  exists reading earlier,
    payload (fst (POST (Parsed body) date_now sensorReadings))
      = IngestedBody true "Sensor data ingested successfully" reading
    /\ GET parseInt (Some plantId) (Some limit)
         (snd (POST (Parsed body) date_now sensorReadings))
       = {| query_payload :=
              QueryReadings true (Some n)
                (Z.of_nat (length (earlier ++ [reading]))) (earlier ++ [reading]);
            query_status := 200 |}.
Proof.
  intros Hid Hn Ht Hh Hne Hp Hlimit Hl.
  destruct (POST_numeric_plant body n date_now sensorReadings Hid Hn Ht Hh)
    as (reading & Hresp & _ & Hhist).
  destruct (pushed_ends_with (history_of n sensorReadings) reading)
    as [older Holder].
  rewrite Holder in Hhist.
  exists reading, (drop (length (older ++ [reading]) - Z.to_nat l) older).
  split; [rewrite Hresp; reflexivity |].
  rewrite (GET_answer plantId (Some limit) _ Hne). rewrite Hp, Hlimit.
  cbv zeta. rewrite (slice_last _ l _ Hl). rewrite Hhist.
  rewrite drop_app_le by (rewrite length_app; cbn [length]; lia).
  reflexivity.
Qed.

Lemma map_get_number_after_other_key (key : Json) (q : Q) (v : list Reading)
    (m : list (Json * list Reading)) :
  is_number key = false ->
  map_get (JNumber q) (map_set key v m) = map_get (JNumber q) m.
Proof.
  intros Hkey. induction m as [| [k0 v0] rest IH]; cbn [map_set map_get].
  - destruct key; cbn in Hkey |- *; congruence.
  - destruct (same_key k0 key) eqn:Hk; cbn [map_get].
    + assert (Hk0 : same_key k0 (JNumber q) = false).
      { destruct k0, key; cbn in Hk, Hkey |- *; congruence. }
      rewrite Hk0. reflexivity.
    + destruct (same_key k0 (JNumber q)); [reflexivity | exact IH].
Qed.

(** X24. [GET] looks readings up under a number only: a request whose
    [plantId] is not a JSON number (a string such as ["1"], [true], an
    array) may be accepted and stored, but it changes no answer of [GET]. *)
Theorem X24_non_numeric_plant_invisible_to_get (body : Json) (date_now : Z)
    (plantId limit : option string) (sensorReadings : list (Json * list Reading)) :
  is_number (or_null (property "plantId" body)) = false ->
  GET parseInt plantId limit (snd (POST (Parsed body) date_now sensorReadings))
  = GET parseInt plantId limit sensorReadings.
Proof.
  intros Hkey. unfold POST, POST_try.
  destruct body; try reflexivity.
  match goal with
  | |- context [if ?c then _ else _] => destruct c
  end; [reflexivity |]. cbn [snd].
  unfold GET. destruct plantId as [[| c rest] |]; try reflexivity.
  destruct (parseInt (String c rest)) as [n |]; [| reflexivity].
  rewrite (map_get_number_after_other_key _ _ _ _ Hkey). reflexivity.
Qed.

End Get.

Lemma X21_get_returns_most_recent_witness :
  let history :=
    history_of 1
      (post_all [(Parsed (Samples.ingest_body (JNumber 1)), 1700000000000%Z);
                 (Parsed (Samples.ingest_body (JNumber 1)), 1700000001000%Z)] []) in
  let recent := drop (length history - Z.to_nat 1) history in
  GET (fun _ => Some 1%Z) (Some "1"%string) (Some "1"%string)
    (post_all [(Parsed (Samples.ingest_body (JNumber 1)), 1700000000000%Z);
               (Parsed (Samples.ingest_body (JNumber 1)), 1700000001000%Z)] [])
    = {| query_payload :=
           QueryReadings true (Some 1%Z) (Z.of_nat (length recent)) recent;
         query_status := 200 |}
  /\ Z.of_nat (length recent) = Z.min 1 (Z.of_nat (length history)).
Proof.
  apply (X21_get_returns_most_recent (fun _ => Some 1%Z) "1" "1" 1 1).
  - discriminate.
  - reflexivity.
  - reflexivity.
  - lia.
Defined.

Lemma X22_get_limit_zero_returns_all_witness :
  GET (fun s => if String.eqb s "1" then Some 1%Z else Some 0%Z)
    (Some "1"%string) (Some "0"%string)
    (post_all [(Parsed (Samples.ingest_body (JNumber 1)), 1700000000000%Z);
               (Parsed (Samples.ingest_body (JNumber 1)), 1700000001000%Z)] [])
  = {| query_payload :=
         QueryReadings true (Some 1%Z)
           (Z.of_nat
              (length
                 (history_of 1
                    (post_all
                       [(Parsed (Samples.ingest_body (JNumber 1)), 1700000000000%Z);
                        (Parsed (Samples.ingest_body (JNumber 1)), 1700000001000%Z)]
                       []))))
           (history_of 1
              (post_all
                 [(Parsed (Samples.ingest_body (JNumber 1)), 1700000000000%Z);
                  (Parsed (Samples.ingest_body (JNumber 1)), 1700000001000%Z)] []));
       query_status := 200 |}.
Proof.
  apply (X22_get_limit_zero_returns_all
           (fun s => if String.eqb s "1" then Some 1%Z else Some 0%Z) "1" "0" 1).
  - discriminate.
  - reflexivity.
  - left. reflexivity.
Defined.

Lemma X23_posted_reading_is_returned_last_witness :
  exists reading earlier,
    payload (fst (POST (Parsed (Samples.ingest_body (JNumber (inject_Z 1))))
                    1700000000000 []))
      = IngestedBody true "Sensor data ingested successfully" reading
    /\ GET (fun _ => Some 1%Z) (Some "1"%string) (Some "1"%string)
         (snd (POST (Parsed (Samples.ingest_body (JNumber (inject_Z 1))))
                 1700000000000 []))
       = {| query_payload :=
              QueryReadings true (Some 1%Z)
                (Z.of_nat (length (earlier ++ [reading]))) (earlier ++ [reading]);
            query_status := 200 |}.
Proof.
  apply (X23_posted_reading_is_returned_last (fun _ => Some 1%Z)
           (Samples.ingest_body (JNumber (inject_Z 1))) "1" "1" 1 1
           1700000000000 []).
  - reflexivity.
  - lia.
  - discriminate.
  - discriminate.
  - discriminate.
  - reflexivity.
  - reflexivity.
  - lia.
Defined.

Lemma X24_non_numeric_plant_invisible_to_get_witness :
  GET (fun _ => Some 1%Z) (Some "1"%string) None
    (snd (POST (Parsed (Samples.ingest_body (JString "1"))) 1700000000000 []))
  = GET (fun _ => Some 1%Z) (Some "1"%string) None [].
Proof.
  apply (X24_non_numeric_plant_invisible_to_get (fun _ => Some 1%Z)
           (Samples.ingest_body (JString "1")) 1700000000000 (Some "1"%string)
           None []).
  reflexivity.
Defined.

(** The string id is stored all the same. *)
Example string_plant_id_is_stored :
  status (fst (POST (Parsed (Samples.ingest_body (JString "1"))) 1700000000000 []))
    = 201%Z
  /\ length (snd (POST (Parsed (Samples.ingest_body (JString "1")))
                    1700000000000 [])) = 1%nat.
Proof. split; vm_compute; reflexivity. Qed.

End QueryFacts.

(** ** The prediction engine on all numbers *)

Module TfModelsNumFacts.

Import PredictionResult AcousticResult TfModelsNum JSMathFacts.

(** An exception of the inner block never leaves a [try] whose handler only
    logs. *)
Lemma try_catch_log_only_completes (block : Block) (locals : Number.t * Number.t) :
  snd (try_catch block log_only locals) = false.
Proof.
  unfold try_catch, log_only. destruct (block locals) as [locals' [|]]; reflexivity.
Qed.

Lemma predictPlantHealth_locals_complete (rt : Runtime) (input : PlantHealthInput) :
  snd (predictPlantHealth_locals rt input) = false.
Proof.
  unfold predictPlantHealth_locals.
  destruct (healthModel rt) as [model |]; [destruct (window_tf rt) |];
    first [apply try_catch_log_only_completes | reflexivity].
Qed.

Lemma predictPlantHealth_result (rt : Runtime) (input : PlantHealthInput) :
  predictPlantHealth_try rt input = Normal (predictPlantHealth rt input)
  /\ predictedHealth (predictPlantHealth rt input)
     = Number.max (Number.Fin 0)
         (Number.min hundred (fst (fst (predictPlantHealth_locals rt input))))
  /\ prediction_confidence (predictPlantHealth rt input)
     = Number.div
         (Number.round
            (Number.mul (snd (fst (predictPlantHealth_locals rt input))) hundred))
         hundred
  /\ trend (predictPlantHealth rt input)
     = determine_trend (fst (fst (predictPlantHealth_locals rt input)))
         (healthScore input).
Proof.
  pose proof (predictPlantHealth_locals_complete rt input) as Hcomplete.
  unfold predictPlantHealth, predictPlantHealth_try.
  destruct (predictPlantHealth_locals rt input) as [[p c] threw].
  cbn [snd] in Hcomplete. subst threw. cbn. tauto.
Qed.

(** The clamp of the return statement: [NaN] stays [NaN], every other
    value, the infinities included, lands in [0,100]. *)
Lemma clamp_nan_or_within (x : Number.t) :
  (x = Number.NaN ->
   Number.max (Number.Fin 0) (Number.min hundred x) = Number.NaN)
  /\ (x <> Number.NaN ->
      Number.within 0 100 (Number.max (Number.Fin 0) (Number.min hundred x))).
Proof.
  split.
  - intros ->. reflexivity.
  - intros Hx. destruct x as [| [|] | q]; [congruence | | |]; cbn;
      eexists; (split; [reflexivity |]); split; minmax_lra.
Qed.

(** The heuristic branch computes a rational from rationals. *)
Lemma fallback_prediction_finite (score t h : Q)
    (locals : Number.t * Number.t) :
  exists p,
    fst (fst (health_fallback_block
                (plant (Number.Fin score) (Number.Fin t) (Number.Fin h)) locals))
    = Number.Fin p.
Proof. eexists. reflexivity. Qed.

Lemma model_prediction_not_nan (v0 : Number.t) :
  v0 <> Number.NaN -> Number.round (Number.mul v0 hundred) <> Number.NaN.
Proof.
  intros Hv0. destruct v0 as [| [|] | q]; [congruence | | |];
    unfold hundred; cbn; discriminate.
Qed.

(** C6, as stated, fails twice.  An inference that throws is an internal
    error, and it yields confidence 0.7, not 0.5.  And the returned value is
    not always in [0,100]: a model whose first output is [NaN] (or absent),
    or a [NaN] temperature on the heuristic path, makes it [NaN]. *)
Lemma C6_internal_error_and_nan :
  (exists c,
     prediction_confidence
       (predictPlantHealth throwing_models
          (plant (Number.Fin 80) (Number.Fin 23) (Number.Fin 60))) = Number.Fin c
     /\ c == 0.7 /\ ~ c == 0.5)
  /\ predictedHealth
       (predictPlantHealth (constant_models [Number.NaN; Number.Fin 0.9])
          (plant (Number.Fin 80) (Number.Fin 23) (Number.Fin 60))) = Number.NaN
  /\ predictedHealth
       (predictPlantHealth (constant_models [])
          (plant (Number.Fin 80) (Number.Fin 23) (Number.Fin 60))) = Number.NaN
  /\ predictedHealth
       (predictPlantHealth no_model
          (plant (Number.Fin 80) Number.NaN (Number.Fin 60))) = Number.NaN.
Proof.
  split; [| split; [| split]]; try reflexivity.
  eexists. split; [reflexivity |]. split.
  - vm_compute. reflexivity.
  - vm_compute. discriminate.
Qed.

(** C6, amended. For all inputs, [NaN] and the infinities included, and
    whatever the model does, no exception reaches the caller of
    [predictPlantHealth] (the outer [try] completes; inference errors are
    absorbed by the inner [catch], not by the catch-all) and the returned
    [predictedHealth] is never a number outside [0,100]: it is [NaN] exactly
    when the prediction before clamping is, and in [0,100] otherwise.  It is
    in [0,100] in particular for rational inputs on the heuristic path
    (temperature 1000 included) and whenever the model delivers a first
    output that is not [NaN]. *)
Theorem C6_prediction_in_range_or_nan (rt : Runtime) (input : PlantHealthInput) :
  let raw := fst (fst (predictPlantHealth_locals rt input)) in
  let result := predictPlantHealth rt input in
  predictPlantHealth_try rt input = Normal result
  /\ (predictedHealth result = Number.NaN <-> raw = Number.NaN)
  /\ (raw <> Number.NaN -> Number.within 0 100 (predictedHealth result))
  /\ (healthModel rt = None \/ window_tf rt = false ->
      (exists score t h,
         input = plant (Number.Fin score) (Number.Fin t) (Number.Fin h)) ->
      Number.within 0 100 (predictedHealth result))
  /\ (forall model values dispose_throws,
        healthModel rt = Some model -> window_tf rt = true ->
        model [Number.div (healthScore input) hundred;
               Number.div (temperature input) (Number.Fin 30);
               Number.div (humidity input) hundred]
          = InferenceValues values dispose_throws ->
        nth 0 values Number.NaN <> Number.NaN ->
        Number.within 0 100 (predictedHealth result)).
Proof.
  intros raw result.
  destruct (predictPlantHealth_result rt input) as (Htry & Hp & _ & _).
  fold raw in Hp. fold result in Hp, Htry.
  destruct (clamp_nan_or_within raw) as [Hnan Hin].
  split; [exact Htry |]. rewrite Hp.
  assert (Hiff : Number.max (Number.Fin 0) (Number.min hundred raw) = Number.NaN
                 <-> raw = Number.NaN).
  { split; [| exact Hnan]. intros Hclamped.
    destruct raw as [| s | q] eqn:Hraw; [reflexivity | |].
    - destruct (Hin ltac:(discriminate)) as (q' & Hq' & _). congruence.
    - destruct (Hin ltac:(discriminate)) as (q' & Hq' & _). congruence. }
  split; [exact Hiff |]. split; [exact Hin |]. split.
  - intros Hpath (score & t & h & ->). apply Hin.
    unfold raw, predictPlantHealth_locals.
    destruct (fallback_prediction_finite score t h
                (healthScore (plant (Number.Fin score) (Number.Fin t) (Number.Fin h)),
                 Number.Fin 0.7)) as [p Hfin].
    destruct Hpath as [Hnone | Htf].
    + rewrite Hnone. rewrite Hfin. discriminate.
    + rewrite Htf. destruct (healthModel rt); rewrite Hfin; discriminate.
  - intros model values dispose_throws Hm Htf Hvalues Hv0. apply Hin.
    unfold raw, predictPlantHealth_locals. rewrite Hm, Htf.
    unfold try_catch, health_model_block. rewrite Hvalues.
    destruct dispose_throws; cbn [log_only fst];
      apply model_prediction_not_nan, Hv0.
Qed.

Lemma C6_prediction_in_range_or_nan_witness :
  Number.within 0 100
    (predictedHealth
       (predictPlantHealth no_model
          (plant (Number.Fin 50) (Number.Fin 1000) (Number.Fin 60))))
  /\ Number.within 0 100
       (predictedHealth
          (predictPlantHealth (constant_models [Number.Inf true; Number.Fin 0.9])
             (plant (Number.Fin 50) (Number.Fin 23) (Number.Fin 60)))).
Proof.
  split.
  - destruct (C6_prediction_in_range_or_nan no_model
                (plant (Number.Fin 50) (Number.Fin 1000) (Number.Fin 60)))
      as (_ & _ & _ & Hfallback & _).
    apply Hfallback; [left; reflexivity | eauto].
  - destruct (C6_prediction_in_range_or_nan
                (constant_models [Number.Inf true; Number.Fin 0.9])
                (plant (Number.Fin 50) (Number.Fin 23) (Number.Fin 60)))
      as (_ & _ & _ & _ & Hmodel).
    eapply Hmodel; [reflexivity | reflexivity | reflexivity |].
    cbn. discriminate.
Defined.

(** *** Agreement with the rational fragment *)

Lemma div_rational (a b : Q) :
  ~ b == 0 -> Number.div (Number.Fin a) (Number.Fin b) = Number.Fin (a / b).
Proof.
  intros Hb. cbn [Number.div].
  destruct (Qeq_bool b 0) eqn:Hzero; [| reflexivity].
  apply Qeq_bool_eq in Hzero. contradiction.
Qed.

Lemma or_default_rational (v d : Q) :
  Number.or_default (Number.Fin v) (Number.Fin d)
  = Number.Fin (TfModels.or_default v d).
Proof.
  unfold Number.or_default, TfModels.or_default.
  destruct (Qeq_bool v 0); reflexivity.
Qed.

Lemma determine_trend_rational (p h : Q) :
  determine_trend (Number.Fin p) (Number.Fin h) = TfModels.determine_trend p h.
Proof.
  unfold determine_trend, TfModels.determine_trend, Number.gtb, Number.ltb.
  cbn [Number.add Number.sub Number.opp].
  destruct (Qlt_le_dec (h + 5) p); [reflexivity |].
  change (h + Qopp 5) with (h - 5).
  destruct (Qlt_le_dec p (h - 5)); reflexivity.
Qed.

Lemma predictPlantHealth_locals_agree (rt : TfModels.Runtime) (rt' : Runtime)
    (input : TfModels.PlantHealthInput) :
  extends_runtime rt rt' ->
  predictPlantHealth_locals rt' (of_input input)
  = ((Number.Fin (fst (TfModels.predictPlantHealth_locals rt input)),
      Number.Fin (snd (TfModels.predictPlantHealth_locals rt input))), false).
Proof.
  intros (Hhealth & _ & Htf).
  unfold predictPlantHealth_locals, TfModels.predictPlantHealth_locals.
  rewrite <- Htf. unfold extends_option in Hhealth.
  destruct (TfModels.healthModel rt) as [model |],
           (healthModel rt') as [model' |]; try contradiction.
  - destruct (TfModels.window_tf rt); [| reflexivity].
    unfold try_catch, health_model_block.
    change [Number.div (healthScore (of_input input)) hundred;
            Number.div (temperature (of_input input)) (Number.Fin 30);
            Number.div (humidity (of_input input)) hundred]
      with (of_numbers [TfModels.healthScore input / 100;
                        TfModels.temperature input / 30;
                        TfModels.humidity input / 100]).
    rewrite (Hhealth _).
    destruct (model _) as [| v0 v1 flag]; cbn [of_inference].
    + reflexivity.
    + cbn [nth]. rewrite or_default_rational.
      destruct flag; reflexivity.
  - destruct (TfModels.window_tf rt); reflexivity.
Qed.

(** On rational inputs, with models that answer as rational models do, the
    function on all numbers returns what the rational fragment returns. *)
Lemma predictPlantHealth_agrees (rt : TfModels.Runtime) (rt' : Runtime)
    (input : TfModels.PlantHealthInput) :
  extends_runtime rt rt' ->
  predictPlantHealth rt' (of_input input)
  = of_prediction (TfModels.predictPlantHealth rt input).
Proof.
  intros Hext.
  unfold predictPlantHealth, predictPlantHealth_try.
  rewrite (predictPlantHealth_locals_agree rt rt' input Hext).
  unfold TfModels.predictPlantHealth, TfModels.predictPlantHealth_try.
  destruct (TfModels.predictPlantHealth_locals rt input) as [p c].
  cbn [fst snd of_prediction PredictionResult.predictedHealth
       PredictionResult.confidence PredictionResult.trend of_input healthScore].
  rewrite determine_trend_rational. reflexivity.
Qed.

Lemma analyzeAcousticPattern_locals_complete (rt : Runtime)
    (audioFeatures : list Number.t) (plantHealthScore : Number.t) :
  snd (analyzeAcousticPattern_locals rt audioFeatures plantHealthScore) = false.
Proof.
  unfold analyzeAcousticPattern_locals.
  destruct (acousticModel rt) as [model |]; [destruct (window_tf rt) |];
    first [apply try_catch_log_only_completes | reflexivity].
Qed.

Lemma analyzeAcousticPattern_result (rt : Runtime) (x : Number.t)
    (rest : list Number.t) (plantHealthScore : Number.t) :
  let locals :=
    fst (analyzeAcousticPattern_locals rt (x :: rest) plantHealthScore) in
  let result := analyzeAcousticPattern rt (x :: rest) plantHealthScore in
  analyzeAcousticPattern_try rt (x :: rest) plantHealthScore = Normal result
  /\ stressLevel result
     = Number.div (Number.round (Number.mul (fst locals) (Number.Fin 1000)))
         (Number.Fin 1000)
  /\ classification result = classify (fst locals)
  /\ acoustic_confidence result
     = Number.div (Number.round (Number.mul (snd locals) hundred)) hundred.
Proof.
  pose proof (analyzeAcousticPattern_locals_complete rt (x :: rest) plantHealthScore)
    as Hcomplete.
  unfold analyzeAcousticPattern, analyzeAcousticPattern_try.
  destruct (analyzeAcousticPattern_locals rt (x :: rest) plantHealthScore)
    as [[stress conf] threw].
  cbn [snd] in Hcomplete. subst threw. cbn. tauto.
Qed.

Lemma sum_rational (rest : list Q) :
  forall x,
    fold_left Number.add (of_numbers rest) (Number.Fin x)
    = Number.Fin (fold_left Qplus rest x).
Proof.
  induction rest as [| y rest IH]; intros x; cbn [of_numbers map fold_left].
  - reflexivity.
  - apply IH.
Qed.

Lemma squares_rational (m : Q) (l : list Q) :
  forall acc,
    fold_left
      (fun sum val =>
         Number.add sum
           (Number.mul (Number.sub val (Number.Fin m))
              (Number.sub val (Number.Fin m))))
      (of_numbers l) (Number.Fin acc)
    = Number.Fin (fold_left (fun sum val => sum + (val - m) ^ 2) l acc).
Proof.
  induction l as [| v l IH]; intros acc; cbn [of_numbers map fold_left].
  - reflexivity.
  - apply (IH (acc + (v - m) ^ 2)).
Qed.

Lemma length_rational (l : list Q) :
  length_of (of_numbers l) = Number.Fin (TfModels.length_of l).
Proof.
  unfold length_of, TfModels.length_of, of_numbers. rewrite length_map. reflexivity.
Qed.

Lemma length_of_positive (x : Q) (rest : list Q) :
  0 < TfModels.length_of (x :: rest).
Proof.
  unfold TfModels.length_of. change 0 with (inject_Z 0). rewrite <- Zlt_Qlt.
  cbn [length]. lia.
Qed.

Lemma sqrt_rational (v : Q) :
  0 <= v -> Number.sqrt (Number.Fin v) = Number.Fin (JSMath.sqrt v).
Proof.
  intros Hv. cbn [Number.sqrt]. destruct (Qlt_le_dec v 0); [lra | reflexivity].
Qed.

Lemma classify_rational (s : Q) : classify (Number.Fin s) = TfModels.classify s.
Proof.
  unfold classify, TfModels.classify, Number.gtb, Number.ltb.
  destruct (Qlt_le_dec 0.7 s); [reflexivity |].
  destruct (Qlt_le_dec 0.4 s); reflexivity.
Qed.

Lemma analyzeAcousticPattern_locals_agree (rt : TfModels.Runtime) (rt' : Runtime)
    (x : Q) (rest : list Q) (plantHealthScore : Q) :
  extends_runtime rt rt' ->
  (TfModels.acousticModel rt = None \/ TfModels.window_tf rt = false ->
   ~ TfModels.sum_reduce (x :: rest) / TfModels.length_of (x :: rest) + 0.001 == 0) ->
  analyzeAcousticPattern_locals rt' (of_numbers (x :: rest))
    (Number.Fin plantHealthScore)
  = ((Number.Fin
        (fst (TfModels.analyzeAcousticPattern_locals rt (x :: rest) plantHealthScore)),
      Number.Fin
        (snd (TfModels.analyzeAcousticPattern_locals rt (x :: rest) plantHealthScore))),
     false).
Proof.
  intros (_ & Hacoustic & Htf) Hdivisor.
  assert (Hfallback :
    ~ TfModels.sum_reduce (x :: rest) / TfModels.length_of (x :: rest) + 0.001 == 0 ->
    acoustic_fallback_block (of_numbers (x :: rest)) (Number.Fin plantHealthScore)
      (Number.Fin 0.5, Number.Fin 0.65)
    = ((Number.Fin
          (fst (TfModels.analyzeAcousticPattern_locals TfModels.no_model
                  (x :: rest) plantHealthScore)),
        Number.Fin
          (snd (TfModels.analyzeAcousticPattern_locals TfModels.no_model
                  (x :: rest) plantHealthScore))), false)).
  { intros Hnz. unfold acoustic_fallback_block.
    assert (Hlen : ~ TfModels.length_of (x :: rest) == 0).
    { pose proof (length_of_positive x rest). lra. }
    rewrite length_rational.
    assert (Hsum : sum_reduce (of_numbers (x :: rest))
                   = Number.Fin (TfModels.sum_reduce (x :: rest))).
    { apply (sum_rational rest x). }
    rewrite Hsum. rewrite (div_rational _ _ Hlen).
    rewrite squares_rational. rewrite (div_rational _ _ Hlen).
    rewrite sqrt_rational.
    2:{ apply TfModelsFacts.quotient_nonneg; [| apply length_of_positive].
        apply ScoringFacts.squares_sum_nonneg. lra. }
    cbn [Number.add]. rewrite (div_rational _ _ Hnz).
    reflexivity. }
  unfold analyzeAcousticPattern_locals. rewrite <- Htf.
  unfold extends_option in Hacoustic.
  destruct (TfModels.acousticModel rt) as [model |] eqn:Hmodel,
           (acousticModel rt') as [model' |]; try contradiction.
  - destruct (TfModels.window_tf rt) eqn:Hwtf.
    + unfold try_catch, acoustic_model_block.
      rewrite (Hacoustic _).
      unfold TfModels.analyzeAcousticPattern_locals. rewrite Hmodel, Hwtf.
      destruct (model _) as [| v0 v1 flag]; cbn [of_inference].
      * reflexivity.
      * cbn [nth]. rewrite or_default_rational. destruct flag; reflexivity.
    + rewrite Hfallback by (apply Hdivisor; right; reflexivity).
      unfold TfModels.analyzeAcousticPattern_locals. rewrite Hmodel, Hwtf.
      reflexivity.
  - rewrite Hfallback by (apply Hdivisor; left; reflexivity).
    unfold TfModels.analyzeAcousticPattern_locals. rewrite Hmodel.
    destruct (TfModels.window_tf rt); reflexivity.
Qed.

(** On rational features and scores, with models that answer as rational
    models do, and when the heuristic path does not divide by zero, the
    function on all numbers returns what the rational fragment returns. *)
Lemma analyzeAcousticPattern_agrees (rt : TfModels.Runtime) (rt' : Runtime)
    (audioFeatures : list Q) (plantHealthScore : Q) :
  extends_runtime rt rt' ->
  (TfModels.acousticModel rt = None \/ TfModels.window_tf rt = false ->
   ~ TfModels.sum_reduce audioFeatures / TfModels.length_of audioFeatures + 0.001
     == 0) ->
  analyzeAcousticPattern rt' (of_numbers audioFeatures) (Number.Fin plantHealthScore)
  = of_acoustic (TfModels.analyzeAcousticPattern rt audioFeatures plantHealthScore).
Proof.
  intros Hext Hdivisor. destruct audioFeatures as [| x rest]; [reflexivity |].
  unfold analyzeAcousticPattern, analyzeAcousticPattern_try.
  cbn [of_numbers map].
  change (Number.Fin x :: map Number.Fin rest) with (of_numbers (x :: rest)).
  rewrite (analyzeAcousticPattern_locals_agree rt rt' x rest plantHealthScore
             Hext Hdivisor).
  unfold TfModels.analyzeAcousticPattern, TfModels.analyzeAcousticPattern_try.
  destruct (TfModels.analyzeAcousticPattern_locals rt (x :: rest) plantHealthScore)
    as [s c].
  cbn [fst snd of_acoustic AcousticResult.stressLevel
       AcousticResult.classification AcousticResult.confidence].
  rewrite classify_rational. reflexivity.
Qed.

Lemma thousandths (q : Q) :
  Number.div (Number.round (Number.mul (Number.Fin q) (Number.Fin 1000)))
    (Number.Fin 1000)
  = Number.Fin (JSMath.round (q * 1000) / 1000).
Proof. reflexivity. Qed.

(** X15. For a non-empty feature vector, whatever the numbers and the
    model, [analyzeAcousticPattern] completes and its classification agrees
    with the returned stress level under the thresholds read weakly:
    [high_stress] comes with a level of at least 0.7, [moderate_stress] with
    a level between 0.4 and 0.7, and [healthy] with a level of at most 0.4 or
    with the level [NaN]. *)
Theorem X15_classification_matches_returned_level (rt : Runtime) (x : Number.t)
    (rest : list Number.t) (plantHealthScore : Number.t) :
  let result := analyzeAcousticPattern rt (x :: rest) plantHealthScore in
  analyzeAcousticPattern_try rt (x :: rest) plantHealthScore = Normal result
  /\ match classification result with
     | high_stress => Number.le (Number.Fin 0.7) (stressLevel result)
     | moderate_stress =>
         Number.le (Number.Fin 0.4) (stressLevel result)
         /\ Number.le (stressLevel result) (Number.Fin 0.7)
     | healthy =>
         stressLevel result = Number.NaN
         \/ Number.le (stressLevel result) (Number.Fin 0.4)
     end.
Proof.
  cbv zeta.
  destruct (analyzeAcousticPattern_result rt x rest plantHealthScore)
    as (Htry & Hs & Hc & _).
  split; [exact Htry |]. rewrite Hs, Hc.
  generalize (fst (fst (analyzeAcousticPattern_locals rt (x :: rest)
                          plantHealthScore))).
  intros [| [|] | s].
  - left. reflexivity.
  - exact I.
  - right. exact I.
  - rewrite thousandths. unfold classify, Number.gtb, Number.ltb, Number.le.
    destruct (DisposalFacts.rounded_thousandths s 700) as [Hup7 Hdown7].
    destruct (DisposalFacts.rounded_thousandths s 400) as [Hup4 Hdown4].
    change (inject_Z 700 / 1000) with (700 / 1000) in *.
    change (inject_Z 400 / 1000) with (400 / 1000) in *.
    destruct (Qlt_le_dec 0.7 s) as [H7 | H7].
    + assert (H : 700 / 1000 <= JSMath.round (s * 1000) / 1000)
        by (apply Hup7; qlra).
      revert H. generalize (JSMath.round (s * 1000) / 1000). intros r Hr. qlra.
    + assert (H : JSMath.round (s * 1000) / 1000 <= 700 / 1000)
        by (apply Hdown7; qlra).
      destruct (Qlt_le_dec 0.4 s) as [H4 | H4].
      * assert (H' : 400 / 1000 <= JSMath.round (s * 1000) / 1000)
          by (apply Hup4; qlra).
        revert H H'. generalize (JSMath.round (s * 1000) / 1000).
        intros r Hr Hr'. split; qlra.
      * right.
        assert (H' : JSMath.round (s * 1000) / 1000 <= 400 / 1000)
          by (apply Hdown4; qlra).
        revert H'. generalize (JSMath.round (s * 1000) / 1000). intros r Hr. qlra.
Qed.

(** The [NaN] level does occur for rational features: for [-0.001] the
    heuristic path divides 0 by 0.  For [-0.002, 0] it divides a positive
    root by 0, and the infinity is capped at 1. *)
Example zero_divisor_cases :
  stressLevel (analyzeAcousticPattern no_model [Number.Fin (-0.001)] (Number.Fin 50))
    = Number.NaN
  /\ classification
       (analyzeAcousticPattern no_model [Number.Fin (-0.001)] (Number.Fin 50))
     = healthy
  /\ (exists s,
        stressLevel
          (analyzeAcousticPattern no_model [Number.Fin (-0.002); Number.Fin 0]
             (Number.Fin 100)) = Number.Fin s
        /\ s == 0.7)
  /\ classification
       (analyzeAcousticPattern no_model [Number.Fin (-0.002); Number.Fin 0]
          (Number.Fin 100))
     = moderate_stress.
Proof.
  split; [vm_compute; reflexivity |]. split; [vm_compute; reflexivity |].
  split; [| vm_compute; reflexivity].
  eexists. split; [vm_compute; reflexivity | vm_compute; reflexivity].
Qed.

(** The evaluations made on the rational fragment carry over: the
    features [-3, -1] with health 100 give the level -0.35 on all numbers
    too. *)
Example negative_features_on_all_numbers :
  exists s,
    stressLevel
      (analyzeAcousticPattern no_model (of_numbers [-3; -1]) (Number.Fin 100))
    = Number.Fin s
    /\ s == -0.35.
Proof.
  rewrite (analyzeAcousticPattern_agrees TfModels.no_model no_model [-3; -1] 100).
  - eexists. split; [reflexivity |]. vm_compute. reflexivity.
  - repeat split.
  - intros _. vm_compute. discriminate.
Qed.

End TfModelsNumFacts.
